(** * Nebula marketplace: catalog server and package page

    A shallow embedding of [server/server.ts] (the catalog query API and the
    two gated write endpoints) and of the package page
    [src/pages/[lang]/catalog/package/[...packageName].astro] (the media
    branches and the install-state reconciliation run on page load),
    followed by the properties of the package lifecycle established on it.

    Conventions of the embedding.
    - JavaScript numbers that hold page numbers, offsets, counts and status
      codes are integers; they are modelled in [Z] (exact below 2^53).
    - Strings are [string]; a character is an [ascii] code unit.
    - A JavaScript object used as a map is a [gmap string _].
    - A handler is a computation in the monad [M]: it threads the catalog
      table, the asset directories and the reply object, and may throw. *)

From Stdlib Require Import ZArith Lia List String Ascii.
From Stdlib Require Import Strings.Byte.
From stdpp Require Import base option strings list gmap.

Local Open Scope string_scope.
Local Open Scope Z_scope.

Set Warnings "-register-all".

(** ** JavaScript values *)

Module Js.

(** A parsed JSON value. *)
Inductive Json : Type :=
| JNull
| JBool (b : bool)
| JNum (n : Z)
| JStr (s : string)
| JArr (xs : list Json)
| JObj (kvs : list (string * Json)).

(** ToBoolean on a JSON value. *)
Definition truthy (v : Json) : bool :=
  match v with
  | JNull => false
  | JBool b => b
  | JNum n => negb (n =? 0)
  | JStr s => negb (String.eqb s "")
  | JArr _ => true
  | JObj _ => true
  end.

(** ToBoolean on a property read: a missing key reads as [undefined]. *)
Definition truthyProp (o : gmap string Json) (k : string) : bool :=
  match o !! k with
  | Some v => truthy v
  | None => false
  end.

(** ToBoolean on a possibly absent string. *)
Definition truthyStr (s : option string) : bool :=
  match s with
  | Some s => negb (String.eqb s "")
  | None => false
  end.

(** Decimal digits of a natural number, most significant first, put in
    front of [acc]; [fuel] bounds the number of digits. *)
Fixpoint printDigits (fuel : nat) (n : Z) (acc : string) : string :=
  match fuel with
  | O => acc
  | S fuel' =>
      let acc' := String (ascii_of_nat (48 + Z.to_nat (n mod 10))) acc in
      if n / 10 =? 0 then acc' else printDigits fuel' (n / 10) acc'
  end.

(** Number-to-string on an integer. *)
Definition numberToString (n : Z) : string :=
  if n <? 0
  then String "-" (printDigits (S (Z.to_nat (- n))) (- n) "")
  else printDigits (S (Z.to_nat n)) n "".

(** ToString on a JSON value; an array joins its elements with commas,
    [null] elements giving the empty string. *)
Fixpoint toString (v : Json) : string :=
  match v with
  | JNull => "null"
  | JBool true => "true"
  | JBool false => "false"
  | JNum n => numberToString n
  | JStr s => s
  | JArr xs =>
      (fix join (l : list Json) : string :=
         match l with
         | [] => ""
         | x :: l' =>
             let e := match x with JNull => "" | _ => toString x end in
             match l' with
             | [] => e
             | _ :: _ => e +:+ "," +:+ join l'
             end
         end) xs
  | JObj _ => "[object Object]"
  end.

(** Template-literal interpolation of a property: `${o.k}`. *)
Definition interpolate (o : gmap string Json) (k : string) : string :=
  match o !! k with
  | Some v => toString v
  | None => "undefined"
  end.

(** White space skipped by [parseInt] (code units below 256). *)
Definition isWhiteSpace (c : ascii) : bool :=
  let n := Z.of_nat (nat_of_ascii c) in
  ((9 <=? n) && (n <=? 13)) || (n =? 32) || (n =? 160).

Fixpoint trimStart (s : string) : string :=
  match s with
  | String c s' => if isWhiteSpace c then trimStart s' else s
  | EmptyString => s
  end.

Definition digitValue (c : ascii) : option Z :=
  let n := Z.of_nat (nat_of_ascii c) in
  if (48 <=? n) && (n <=? 57) then Some (n - 48) else None.

(** Value of the longest prefix of decimal digits; [acc] is [None] until a
    digit has been read. *)
Fixpoint digits (s : string) (acc : option Z) : option Z :=
  match s with
  | String c s' =>
      match digitValue c with
      | Some d => digits s' (Some (10 * default 0 acc + d))
      | None => acc
      end
  | EmptyString => acc
  end.

(** [parseInt(s, 10)] on a string; [None] is NaN. *)
Definition parseIntStr (s : string) : option Z :=
  match trimStart s with
  | String "-" r => Z.opp <$> digits r None
  | String "+" r => digits r None
  | t => digits t None
  end.

(** [parseInt(v, 10)] on a possibly [undefined] argument, which is first
    converted with ToString. *)
Definition parseInt (v : option string) : option Z :=
  parseIntStr (default "undefined" v).

(** [n || d] on a number: NaN and zero (of either sign) are falsy. *)
Definition orNum (n : option Z) (d : Z) : Z :=
  match n with
  | Some k => if k =? 0 then d else k
  | None => d
  end.

(** [Math.ceil(a / b)] for integers [a] and positive [b]. *)
Definition ceilDiv (a b : Z) : Z := - ((- a) / b).

(** Value of the longest prefix of hexadecimal digits. *)
Definition hexDigitValue (c : ascii) : option Z :=
  let n := Z.of_nat (nat_of_ascii c) in
  if (48 <=? n) && (n <=? 57) then Some (n - 48)
  else if (97 <=? n) && (n <=? 102) then Some (n - 87)
  else if (65 <=? n) && (n <=? 70) then Some (n - 55)
  else None.

Fixpoint hexDigits (s : string) (acc : option Z) : option Z :=
  match s with
  | String c s' =>
      match hexDigitValue c with
      | Some d => hexDigits s' (Some (16 * default 0 acc + d))
      | None => acc
      end
  | EmptyString => acc
  end.

(** The digits of [parseInt(s)] without a radix: hexadecimal after a
    [0x] or [0X] prefix, decimal otherwise. *)
Definition unsignedAuto (s : string) : option Z :=
  match s with
  | String "0" (String "x" r) => hexDigits r None
  | String "0" (String "X" r) => hexDigits r None
  | _ => digits s None
  end.

(** [parseInt(v)], no radix given, on a possibly [undefined] argument. *)
Definition parseIntAuto (v : option string) : option Z :=
  match trimStart (default "undefined" v) with
  | String "-" r => Z.opp <$> unsignedAuto r
  | String "+" r => unsignedAuto r
  | t => unsignedAuto t
  end.

(** [a || b] where both sides are a number, NaN or [undefined]. *)
Definition orElse (a b : option Z) : option Z :=
  match a with
  | Some k => if k =? 0 then b else a
  | None => b
  end.

(** [v === s] for a property read [v] and a string [s]. *)
Definition strictEqStr (v : option Json) (s : string) : bool :=
  match v with
  | Some (JStr t) => String.eqb t s
  | _ => false
  end.

End Js.

(** ** The server: [server/server.ts] *)

Module Server.
Import Js.

(** The parts of the configuration document [parsedDoc] the handlers read. *)
Record Config : Type := {
  db_postgres : bool;
  marketplace_enabled : bool;
  marketplace_psk : string
}.

(** [interface Catalog], as stored: [tags], [background_image] and
    [background_video] allow NULL. *)
Record Catalog : Type := {
  package_name : string;
  title : string;
  description : string;
  author : string;
  image : string;
  tags : option Json;
  version : string;
  background_image : option string;
  background_video : option string;
  payload : string;
  type : string
}.

(** The object built for each asset of the listing and for a single
    package: every column but [package_name]. *)
Record PublicFields : Type := {
  pf_title : string;
  pf_description : string;
  pf_author : string;
  pf_image : string;
  pf_tags : option Json;
  pf_version : string;
  pf_background_image : option string;
  pf_background_video : option string;
  pf_payload : string;
  pf_type : string
}.

Definition publicFields (asset : Catalog) : PublicFields :=
  {| pf_title := title asset;
     pf_description := description asset;
     pf_author := author asset;
     pf_image := image asset;
     pf_tags := tags asset;
     pf_version := version asset;
     pf_background_image := background_image asset;
     pf_background_video := background_video asset;
     pf_payload := payload asset;
     pf_type := type asset |}.

(** Bodies passed to [reply.send]. *)
Inductive Body : Type :=
| BError (msg : string)
| BStatus (msg : string)
| BAssets (assets : gmap string PublicFields) (pages : Z)
| BDetails (details : PublicFields).

(** The reply object: the status code in force and what was sent to the
    client, with the status code it was sent under. *)
Record Reply : Type := {
  statusCode : Z;
  sent : list (Z * Body)
}.

Definition freshReply : Reply := {| statusCode := 200; sent := [] |}.

(** A file stream of an upload: the bytes it delivers, and whether it
    ends normally or with an error after them. *)
Inductive FileStream : Type :=
| Complete (bytes : list byte)
| Broken (bytes : list byte).

Definition delivered (f : FileStream) : list byte :=
  match f with Complete bs => bs | Broken bs => bs end.

(** What [request.file()] yields on a multipart request. *)
Record MultipartFile : Type := {
  filename : string;
  file : FileStream
}.

(** The state a handler runs in: the [catalog_assets] table in insertion
    order, the directories under [database_assets] (each a map from file
    name to content; a package name and a file name are taken as path
    segments as they stand), and the reply. *)
Record State : Type := {
  table : list Catalog;
  assetDirs : gmap string (gmap string (list byte));
  reply : Reply
}.

Inductive Exn : Type :=
| UniqueConstraintError
| DatabaseError
| ENOENT
| EEXIST
| StreamError
| TypeError
| InvalidMultipartContentTypeError.

Definition M (A : Type) : Type := State -> (Exn + A) * State.

#[global] Instance M_ret : MRet M := fun A x st => (inr x, st).

#[global] Instance M_bind : MBind M := fun A B f m st =>
  match m st with
  | (inr x, st') => f x st'
  | (inl e, st') => (inl e, st')
  end.

Definition throw {A} (e : Exn) : M A := fun st => (inl e, st).

Definition tryCatch {A} (body : M A) (handler : Exn -> M A) : M A :=
  fun st =>
    match body st with
    | (inl e, st') => handler e st'
    | r => r
    end.

Notation "m1 ;; m2" := (mbind (fun _ => m2) m1)
  (at level 100, m2 at level 200, right associativity, only parsing).

(** [reply.status(code)] *)
Definition status (code : Z) : M unit := fun st =>
  (inr tt, {| table := table st; assetDirs := assetDirs st;
              reply := {| statusCode := code; sent := sent (reply st) |} |}).

(** [reply.send(body)]: the first call is the response; on a reply
    already sent the framework logs a warning and drops the call. *)
Definition send (body : Body) : M unit := fun st =>
  (inr tt, {| table := table st; assetDirs := assetDirs st;
              reply := {| statusCode := statusCode (reply st);
                          sent := match sent (reply st) with
                                  | [] => [(statusCode (reply st), body)]
                                  | first :: later => first :: later
                                  end |} |}).

Section Handlers.

Variable parsedDoc : Config.

(** *** The catalog table *)

(** [catalogAssets.count()] *)
Definition count : M Z := fun st => (inr (Z.of_nat (length (table st))), st).

(** [catalogAssets.findAll({ offset, limit })].  Both engines refuse an
    offset that is not a signed 64-bit integer; a negative offset is
    refused by postgres and read as zero by sqlite.  (The offset is the
    exact integer; the code computes it in doubles, which agree with it
    below 2^53.) *)
Definition findAll (offset limit : Z) : M (list Catalog) := fun st =>
  if (offset <? - 2 ^ 63) || (2 ^ 63 <=? offset) then (inl DatabaseError, st)
  else if (offset <? 0) && db_postgres parsedDoc then (inl DatabaseError, st)
  else (inr (take (Z.to_nat limit) (drop (Z.to_nat offset) (table st))), st).

(** [catalogAssets.findOne({ where: { package_name } })] *)
Definition findOne (name : string) : M (option Catalog) := fun st =>
  (inr (List.find (fun row => String.eqb (package_name row) name) (table st)), st).

(** [catalogAssets.create(row)]: [package_name] is declared [unique]. *)
Definition create (row : Catalog) : M unit := fun st =>
  if existsb (fun r => String.eqb (package_name r) (package_name row)) (table st)
  then (inl UniqueConstraintError, st)
  else (inr tt, {| table := table st ++ [row]; assetDirs := assetDirs st;
                   reply := reply st |}).

(** *** The asset directories *)

(** [access(`${assets}/${name}/`, constants.F_OK)], where [name] is one
    path segment: the directory of that name.  (A name with [/], an empty
    name, [.] or [..] names another place of the file system, which the
    state does not hold.) *)
Definition access (name : string) : M unit := fun st =>
  match assetDirs st !! name with
  | Some _ => (inr tt, st)
  | None => (inl ENOENT, st)
  end.

(** [mkdir(`${assets}/${name}/`)], where [name] is one path segment
    (see [access]). *)
Definition mkdir (name : string) : M unit := fun st =>
  match assetDirs st !! name with
  | Some _ => (inl EEXIST, st)
  | None => (inr tt, {| table := table st;
                        assetDirs := <[name := ∅]> (assetDirs st);
                        reply := reply st |})
  end.

(** [pipeline(stream, createWriteStream(database_assets/dir/name))]: the
    file is opened truncated, which fails when the directory is missing,
    and receives the bytes of the stream.  The code builds the path with
    [new URL]; for names that URL parsing leaves as they stand (one
    segment each, no [#], [?], [%], [\]) it is the path of [name] in the
    directory [dir], which is what is modelled. *)
Definition pipeline (stream : FileStream) (dir name : string) : M unit := fun st =>
  match assetDirs st !! dir with
  | None => (inl ENOENT, st)
  | Some files =>
      let st' := {| table := table st;
                    assetDirs := <[dir := <[name := delivered stream]> files]> (assetDirs st);
                    reply := reply st |} in
      match stream with
      | Complete _ => (inr tt, st')
      | Broken _ => (inl StreamError, st')
      end
  end.

(** *** GET /api/catalog-assets/ *)

(** The [assets] object is a map from names to fields; assignment to the
    key [__proto__] of a JavaScript object sets no property, so a row of
    that name is the one case in which the map has an entry that the
    object lacks. *)

Definition catalogAssetsHandler (page : option string) : M unit :=
  tryCatch
    (let pageNum := orNum (parseInt page) 1 in
     (if pageNum <? 1
      then status 400;; send (BError "Page must be a positive number!")
      else mret tt);;
     let offset := (pageNum - 1) * 20 in
     totalItems ← count;
     dbAssets ← findAll offset 20;
     let assets :=
       foldl (fun acc asset => <[package_name asset := publicFields asset]> acc)
             (∅ : gmap string PublicFields) dbAssets in
     send (BAssets assets (ceilDiv totalItems 20)))
    (fun _ => status 500;; send (BError "An error occured")).

(** *** GET /api/packages/:package *)

Definition packageHandler (package : string) : M unit :=
  tryCatch
    (packageRow ← findOne package;
     match packageRow with
     | None => status 404;; send (BError "Package not found!")
     | Some row => send (BDetails (publicFields row))
     end)
    (fun _ => status 500;; send (BError "An unexpected error occured")).

(** *** The write endpoints *)

(** Headers of a write request; an absent header is [None]. *)
Record Headers : Type := {
  psk : option string;
  packagename : option string
}.

(** [interface VerifyStatus]: the status and the message of the error,
    if any. *)
Record VerifyStatus : Type := {
  vstatus : Z;
  verror : option string
}.

Definition verifyReq (headers : Headers) (upload : bool) (data : option MultipartFile)
  : VerifyStatus :=
  if negb (marketplace_enabled parsedDoc) then
    {| vstatus := 500; verror := Some "Marketplace Is disabled!" |}
  else if negb (bool_decide (psk headers = Some (marketplace_psk parsedDoc))) then
    {| vstatus := 403; verror := Some "PSK isn't correct!" |}
  else if upload && negb (truthyStr (packagename headers)) then
    {| vstatus := 500; verror := Some "No packagename defined!" |}
  else if upload && negb (bool_decide (is_Some data)) then
    {| vstatus := 400; verror := Some "No file uploaded!" |}
  else {| vstatus := 200; verror := None |}.

(** POST /api/upload-asset once [request.file()] has returned [data]. *)
Definition uploadAssetHandler (headers : Headers) (data : option MultipartFile) : M unit :=
  let verify := verifyReq headers true data in
  match verror verify with
  | Some message => status (vstatus verify);; send (BStatus message)
  | None =>
      uploaded ←
        tryCatch
          (match data with
           | Some d =>
               pipeline (file d) (default "undefined" (packagename headers)) (filename d)
           | None => throw TypeError
           end;;
           mret true)
          (fun _ =>
             status 500;;
             send (BStatus "File couldn't be uploaded! (Package most likely doesn't exist)");;
             mret false);
      if uploaded : bool
      then status (vstatus verify);; send (BStatus "File uploaded successfully!")
      else mret tt
  end.

(** The body of an upload request as [request.file()] sees it. *)
Inductive UploadBody : Type :=
| NotMultipart
| Multipart (data : option MultipartFile).

(** [request.file()]: the first file part of a multipart body, if any; on
    a body that is not multipart it throws. *)
Definition requestFile (body : UploadBody) : M (option MultipartFile) :=
  match body with
  | NotMultipart => throw InvalidMultipartContentTypeError
  | Multipart data => mret data
  end.

(** POST /api/upload-asset, from its first line: the file is awaited
    before the request is verified, outside any [try]. *)
Definition uploadAssetRoute (headers : Headers) (body : UploadBody) : M unit :=
  data ← requestFile body;
  uploadAssetHandler headers data.

(** Body of a create request. *)
Record CreateBody : Type := {
  b_uuid : string;
  b_title : string;
  b_image : string;
  b_author : string;
  b_version : string;
  b_description : string;
  b_tags : option Json;
  b_payload : string;
  b_background_video : option string;
  b_background_image : option string;
  b_type : string
}.

Definition catalogOfBody (b : CreateBody) : Catalog :=
  {| package_name := b_uuid b;
     title := b_title b;
     description := b_description b;
     author := b_author b;
     image := b_image b;
     tags := b_tags b;
     version := b_version b;
     background_image := b_background_image b;
     background_video := b_background_video b;
     payload := b_payload b;
     type := b_type b |}.

(** POST /api/create-package *)
Definition createPackageHandler (headers : Headers) (body : CreateBody) : M unit :=
  let verify := verifyReq headers false None in
  match verror verify with
  | Some message => status (vstatus verify);; send (BStatus message)
  | None =>
      let body := catalogOfBody body in
      create body;;
      tryCatch
        (access (package_name body);;
         status 500;; send (BStatus "Package already exists!"))
        (fun _ =>
           mkdir (package_name body);;
           status (vstatus verify);; send (BStatus "Package created successfully!"))
  end.

End Handlers.

(** Serving one request: the handler runs against the table and the
    directories with a fresh reply.  The result is the exception that
    escaped the handler, if any, and the state it leaves. *)
Definition serve (h : M unit) (tbl : list Catalog)
    (dirs : gmap string (gmap string (list byte))) : (Exn + unit) * State :=
  h {| table := tbl; assetDirs := dirs; reply := freshReply |}.

(** The routes registered on the application (the health probe apart). *)
Inductive Request : Type :=
| GetCatalogAssets (page : option string)
| GetPackage (package : string)
| PostUploadAsset (headers : Headers) (body : UploadBody)
| PostCreatePackage (headers : Headers) (body : CreateBody).

Definition route (parsedDoc : Config) (r : Request) : M unit :=
  match r with
  | GetCatalogAssets page => catalogAssetsHandler parsedDoc page
  | GetPackage package => packageHandler package
  | PostUploadAsset headers body => uploadAssetRoute parsedDoc headers body
  | PostCreatePackage headers body => createPackageHandler parsedDoc headers body
  end.

(** Requests served one after the other, each on the table and the
    directories the previous one left: the final state and the replies,
    request by request. *)
Fixpoint serveAll (parsedDoc : Config) (requests : list Request) (tbl : list Catalog)
    (dirs : gmap string (gmap string (list byte)))
  : list (list (Z * Body)) * (list Catalog * gmap string (gmap string (list byte))) :=
  match requests with
  | [] => ([], (tbl, dirs))
  | r :: requests' =>
      let st := (serve (route parsedDoc r) tbl dirs).2 in
      let rest := serveAll parsedDoc requests' (table st) (assetDirs st) in
      (sent (reply st) :: rest.1, rest.2)
  end.

(** The port the server listens on:
    [parseInt(process.env.PORT) || parsedDoc.server.server.port || parseInt('8080')]. *)
Definition port (envPort : option string) (configPort : option Z) : option Z :=
  orElse (orElse (parseIntAuto envPort) configPort) (parseIntAuto (Some "8080")).

End Server.

(** ** The package page: [pages/[lang]/catalog/package/[...packageName].astro] *)

Module PackagePage.
Import Js Server.

(** *** Frontmatter: the record fetched from [/api/packages/:package] *)

Definition jsonOfString (s : option string) : Json :=
  match s with
  | Some s => JStr s
  | None => JNull
  end.

(** The keys and values of the [details] object, as serialised. *)
Definition detailsFields (d : PublicFields) : list (string * Json) :=
  [ ("title", JStr (pf_title d));
    ("description", JStr (pf_description d));
    ("image", JStr (pf_image d));
    ("author", JStr (pf_author d));
    ("tags", default JNull (pf_tags d));
    ("version", JStr (pf_version d));
    ("background_image", jsonOfString (pf_background_image d));
    ("background_video", jsonOfString (pf_background_video d));
    ("payload", JStr (pf_payload d));
    ("type", JStr (pf_type d)) ].

(** The keys and values of an entry of [assets] in the listing. *)
Definition assetFields (d : PublicFields) : list (string * Json) :=
  [ ("title", JStr (pf_title d));
    ("description", JStr (pf_description d));
    ("author", JStr (pf_author d));
    ("image", JStr (pf_image d));
    ("tags", default JNull (pf_tags d));
    ("version", JStr (pf_version d));
    ("background_image", jsonOfString (pf_background_image d));
    ("background_video", jsonOfString (pf_background_video d));
    ("payload", JStr (pf_payload d));
    ("type", JStr (pf_type d)) ].

(** [response.json()] on a body sent by the server. *)
Definition bodyJson (b : Body) : gmap string Json :=
  match b with
  | BError msg => {[ "error" := JStr msg ]}
  | BStatus msg => {[ "status" := JStr msg ]}
  | BDetails d => list_to_map (detailsFields d)
  | BAssets assets pages =>
      {[ "assets" := JObj (map_to_list ((fun d => JObj (assetFields d)) <$> assets));
         "pages" := JNum pages ]}
  end.

(** [await fetch("/api/packages/" + packageName)] followed by
    [response.json()]: the object the page calls [assetsJson].  For a
    [packageName] that the URL carries as one segment to the [:package]
    route, this is the reply of the lookup for that name. *)
Definition fetchAssetsJson (tbl : list Catalog)
    (dirs : gmap string (gmap string (list byte))) (packageName : string)
  : gmap string Json :=
  match sent (reply (serve (packageHandler packageName) tbl dirs).2) with
  | (_, b) :: _ => bodyJson b
  | [] => ∅
  end.

(** *** The template *)

(** The media element of the package card. *)
Inductive Media : Type :=
| Video (src : string)
| BackgroundImage (url : string)
| Image (src alt : string).

(** A class list, as the [class] attribute gives it. *)
Definition classList_add (c : string) (l : list string) : list string :=
  if bool_decide (c ∈ l) then l else l ++ [c].

Definition classList_remove (c : string) (l : list string) : list string :=
  filter (fun x => x ≠ c) l.

(** The two buttons of the card, each with its class list. *)
Record Buttons : Type := {
  installButton : list string;
  uninstallButton : list string
}.

Definition renderedButtons : Buttons :=
  {| installButton :=
       [ "bg-primary"; "text-text-color"; "border"; "border-transparent";
         "rounded-lg"; "px-6"; "py-3"; "hover:bg-navbar-color";
         "transition-colors"; "duration-300"; "mt-9" ];
     uninstallButton :=
       [ "hidden"; "bg-primary"; "text-text-color"; "border"; "border-transparent";
         "rounded-lg"; "px-6"; "py-3"; "hover:bg-navbar-color";
         "transition-colors"; "duration-300"; "mt-9" ] |}.

(** The three [{cond && (...)}] blocks of the card, in template order;
    a block whose condition is falsy contributes nothing. *)
Definition renderMedia (packageName : string) (assetsJson : gmap string Json)
  : list Media :=
  (if truthyProp assetsJson "background_video"
   then [Video ("/packages/" +:+ packageName +:+ "/"
                 +:+ interpolate assetsJson "background_video")]
   else [])
  ++
  (if truthyProp assetsJson "backgroundImage"
   then [BackgroundImage ("url(/packages/" +:+ packageName +:+ "/"
                           +:+ interpolate assetsJson "backgroundImage" +:+ ")")]
   else [])
  ++
  (if negb (truthyProp assetsJson "background_video")
      && negb (truthyProp assetsJson "backgroundImage")
   then [Image ("/packages/" +:+ packageName +:+ "/" +:+ interpolate assetsJson "image")
               (interpolate assetsJson "title")]
   else []).

(** What the template renders inside the layout: the error heading, or
    the card with its media and buttons. *)
Inductive View : Type :=
| ErrorView
| PackageView (media : list Media) (buttons : Buttons).

Definition render (packageName : string) (assetsJson : gmap string Json) : View :=
  if truthyProp assetsJson "error" then ErrorView
  else PackageView (renderMedia packageName assetsJson) renderedButtons.

(** *** The script run on page load *)

(** A persisted plugin descriptor. *)
Record Plugin : Type := {
  name : string;
  src : string;
  ptype : string;
  remove : option bool
}.

(** The two persisted collections, each as
    [JSON.parse(localStorage.getItem(key))] gives it: [None] when the key
    holds nothing ([null]). *)
Record LocalStorage : Type := {
  themes : option (list string);
  plugins : option (list Plugin)
}.

(** [Array.prototype.indexOf] *)
Fixpoint indexOfFrom (x : string) (l : list string) (i : Z) : Z :=
  match l with
  | [] => -1
  | y :: l' => if String.eqb y x then i else indexOfFrom x l' (i + 1)
  end.

Definition indexOf (x : string) (l : list string) : Z := indexOfFrom x l 0.

(** The button updates of [fn]; the click listeners it also registers
    act only on later clicks. *)
Definition fn (packageName : string) (localStorage : LocalStorage) (dom : Buttons)
  : Buttons :=
  let cssItems := default [] (themes localStorage) in
  let cssItemExists := negb (indexOf packageName cssItems =? -1) in
  let pluginItems := default [] (plugins localStorage) in
  let pluginItemExists :=
    List.find (fun p => String.eqb (name p) packageName
                        && negb (bool_decide (remove p = Some true)))
              pluginItems in
  if cssItemExists || bool_decide (is_Some pluginItemExists)
  then {| installButton := classList_add "hidden" (installButton dom);
          uninstallButton := classList_remove "hidden" (uninstallButton dom) |}
  else dom.

(** A button is shown when its class list lacks [hidden]. *)
Definition shown (classes : list string) : bool := negb (bool_decide ("hidden" ∈ classes)).

(** The type line of the card: both plugin kinds read "plugin". *)
Definition typeLabel (assetsJson : gmap string Json) : option Json :=
  if strictEqStr (assetsJson !! "type") "plugin-page"
     || strictEqStr (assetsJson !! "type") "plugin-sw"
  then Some (JStr "plugin")
  else assetsJson !! "type".

(** The first argument the install listener passes to
    [settings.marketPlaceSettings.install]. *)
Inductive InstallArgument : Type :=
| ThemeArgument (payload video bgImage : option Json)
| PluginArgument (name : string) (src : option Json) (type : string).

(** The listener reads [payload], the object of [data-assets] parsed
    back, which is [assetsJson]. *)
Definition installArgument (packageName : string) (payload : gmap string Json)
  : InstallArgument :=
  if strictEqStr (payload !! "type") "theme"
  then ThemeArgument (payload !! "payload") (payload !! "background_video")
                     (payload !! "background_image")
  else if strictEqStr (payload !! "type") "plugin-page"
  then PluginArgument packageName (payload !! "payload") "page"
  else PluginArgument packageName (payload !! "payload") "serviceWorker".

(** What the install listener does to the buttons once the install has
    resolved. *)
Definition installResolved (dom : Buttons) : Buttons :=
  {| installButton := classList_add "hidden" (installButton dom);
     uninstallButton := classList_remove "hidden" (uninstallButton dom) |}.

(** What the uninstall listener does to the buttons once the uninstall
    has resolved. *)
Definition uninstallResolved (dom : Buttons) : Buttons :=
  {| installButton := classList_remove "hidden" (installButton dom);
     uninstallButton := classList_add "hidden" (uninstallButton dom) |}.

End PackagePage.

(** ** The states of the specification and sample data *)

Module Spec.
Import Js Server PackagePage.

(** The two install states of a package on the client. *)
Inductive InstallState : Type :=
| Installed
| NotInstalled.

(** The install state the two buttons display: exactly one is shown. *)
Definition displayedState (b : Buttons) : option InstallState :=
  match shown (installButton b), shown (uninstallButton b) with
  | false, true => Some Installed
  | true, false => Some NotInstalled
  | _, _ => None
  end.

(** The identifier is in the persisted theme collection, or names a
    persisted plugin descriptor whose [remove] flag is not [true]. *)
Definition persistedAsInstalled (packageName : string) (localStorage : LocalStorage) : Prop :=
  packageName ∈ default [] (themes localStorage)
  \/ exists p, p ∈ default [] (plugins localStorage)
               /\ name p = packageName /\ remove p <> Some true.

(** No two rows of the table carry the same [package_name]. *)
Definition uniqueNames (tbl : list Catalog) : Prop :=
  NoDup (package_name <$> tbl).

(** Every row of the table has its asset directory. *)
Definition rowsHaveDirs (tbl : list Catalog)
    (dirs : gmap string (gmap string (list byte))) : Prop :=
  forall row, row ∈ tbl -> is_Some (dirs !! package_name row).

(** Names that the path and URL handling of the code take as they
    stand: letters, digits, [-], [_] and [.] only, not empty, not [.] or
    [..], at most 100 characters.  Such a name is one path segment under
    [database_assets], one segment of the upload URL and one [:package]
    route parameter. *)
Definition plainChar (c : ascii) : bool :=
  let n := Z.of_nat (nat_of_ascii c) in
  ((48 <=? n) && (n <=? 57)) || ((65 <=? n) && (n <=? 90))
  || ((97 <=? n) && (n <=? 122)) || (n =? 45) || (n =? 46) || (n =? 95).

Fixpoint allPlain (s : string) : bool :=
  match s with
  | EmptyString => true
  | String c s' => plainChar c && allPlain s'
  end.

Definition plainName (s : string) : Prop :=
  allPlain s = true /\ s <> "" /\ s <> "." /\ s <> ".."
  /\ (String.length s <= 100)%nat.

(** A request whose package identifier and file name, if it carries any,
    are plain names. *)
Definition plainRequest (r : Request) : Prop :=
  match r with
  | GetCatalogAssets _ => True
  | GetPackage package => plainName package
  | PostUploadAsset headers body =>
      (forall target, packagename headers = Some target -> plainName target)
      /\ (forall d, body = Multipart (Some d) -> plainName (filename d))
  | PostCreatePackage _ body => plainName (b_uuid body)
  end.

(** Every asset directory belongs to a row of the table. *)
Definition dirsHaveRows (tbl : list Catalog)
    (dirs : gmap string (gmap string (list byte))) : Prop :=
  forall name, is_Some (dirs !! name) -> exists row, row ∈ tbl /\ package_name row = name.

End Spec.

Module Sample.
Import Js Server PackagePage.

Definition sqliteDoc : Config :=
  {| db_postgres := false; marketplace_enabled := true; marketplace_psk := "s3cret" |}.


(** A theme that declares a background image and no video. *)
Definition aurora : Catalog :=
  {| package_name := "pkg-1"; title := "Aurora"; description := "Northern lights";
     author := "nebula"; image := "cover.png"; tags := None; version := "1.0.0";
     background_image := Some "bg.png"; background_video := None;
     payload := "aurora.css"; type := "theme" |}.

Definition auroraBody : CreateBody :=
  {| b_uuid := "pkg-1"; b_title := "Aurora"; b_image := "cover.png";
     b_author := "nebula"; b_version := "1.0.0"; b_description := "Northern lights";
     b_tags := None; b_payload := "aurora.css"; b_background_video := None;
     b_background_image := Some "bg.png"; b_type := "theme" |}.

Definition keyed (target : option string) : Headers :=
  {| psk := Some "s3cret"; packagename := target |}.

Definition wrongKey : Headers :=
  {| psk := Some "guess"; packagename := Some "pkg-1" |}.

Definition cover : MultipartFile :=
  {| filename := "cover.png"; file := Complete [x89; x50; x4e; x47] |}.

Definition adblock : Plugin :=
  {| name := "pkg-2"; src := "adblock.js"; ptype := "page"; remove := None |}.

(** A short session: a package is created, its cover uploaded, the
    listing and the package read, and the same package created again. *)
Definition session : list Request :=
  [ PostCreatePackage (keyed None) auroraBody;
    PostUploadAsset (keyed (Some "pkg-1")) (Multipart (Some cover));
    PostUploadAsset wrongKey NotMultipart;
    GetCatalogAssets (Some "1");
    GetPackage "pkg-1";
    PostCreatePackage (keyed None) auroraBody ].

End Sample.

(** * Properties *)

Import Js Server PackagePage Spec.

(** ** Arithmetic and containers *)

(** [ceilDiv a b] is the least integer whose product with [b] reaches [a]. *)
Lemma ceilDiv_spec (a b : Z) :
  0 < b -> b * (ceilDiv a b - 1) < a <= b * ceilDiv a b.
Proof.
  intros Hb. unfold ceilDiv.
  pose proof (Z.div_mod (- a) b ltac:(lia)) as Hdm.
  pose proof (Z.mod_pos_bound (- a) b Hb) as Hr.
  nia.
Qed.


(** [parseInt] on a few query values. *)
Example parseInt_samples :
  parseInt (Some "2") = Some 2
  /\ parseInt (Some " +17px") = Some 17
  /\ parseInt (Some "-3") = Some (-3)
  /\ parseInt (Some "0.5") = Some 0
  /\ parseInt (Some "-0") = Some 0
  /\ parseInt (Some "abc") = None
  /\ parseInt (Some "") = None
  /\ parseInt None = None.
Proof. repeat (split; [reflexivity|]). reflexivity. Qed.

(** *** Printing and reading a page number *)

Lemma digitValue_of_digit (d : Z) :
  0 <= d < 10 -> digitValue (ascii_of_nat (48 + Z.to_nat d)) = Some d.
Proof.
  intros Hd.
  assert (Hcases : d = 0 \/ d = 1 \/ d = 2 \/ d = 3 \/ d = 4
                   \/ d = 5 \/ d = 6 \/ d = 7 \/ d = 8 \/ d = 9) by lia.
  repeat (destruct Hcases as [-> | Hcases]; [reflexivity|]). subst d. reflexivity.
Qed.

(** Reading the digits printed for [n] in front of [acc] is reading [acc]
    with [n] already read. *)
Lemma digits_printDigits (fuel : nat) (n : Z) (acc : string) :
  0 <= n < Z.of_nat fuel ->
  digits (printDigits fuel n acc) None = digits acc (Some n).
Proof.
  revert n acc. induction fuel as [|fuel IH]; intros n acc Hn; [lia|].
  cbn [printDigits].
  pose proof (Z.mod_pos_bound n 10 ltac:(lia)) as Hmod.
  pose proof (Z.div_mod n 10 ltac:(lia)) as Hdm.
  destruct (Z.eqb_spec (n / 10) 0) as [Hz | Hnz].
  - cbn [digits]. rewrite digitValue_of_digit by lia. cbn [default from_option id].
    f_equal. f_equal. lia.
  - rewrite IH by (split; [apply Z.div_pos; lia | lia]).
    cbn [digits]. rewrite digitValue_of_digit by lia. cbn [default from_option id].
    f_equal. f_equal. lia.
Qed.

Lemma printDigits_head (fuel : nat) (n d : Z) (acc : string) :
  0 <= d < 10 ->
  exists d' r,
    0 <= d' < 10
    /\ printDigits fuel n (String (ascii_of_nat (48 + Z.to_nat d)) acc)
       = String (ascii_of_nat (48 + Z.to_nat d')) r.
Proof.
  revert n d acc. induction fuel as [|fuel IH]; intros n d acc Hd; cbn [printDigits].
  - eauto.
  - pose proof (Z.mod_pos_bound n 10 ltac:(lia)) as Hmod.
    destruct (n / 10 =? 0); [eauto | by apply IH].
Qed.

(** Every page number [page >= 1] is the reading of a query value: its
    decimal form. *)
Lemma parseInt_numberToString (page : Z) :
  1 <= page -> parseInt (Some (numberToString page)) = Some page.
Proof.
  intros Hpage. unfold parseInt, parseIntStr, numberToString. cbn [default from_option id].
  assert (Hf : (page <? 0) = false) by (apply Z.ltb_ge; lia). rewrite Hf.
  pose proof (digits_printDigits (S (Z.to_nat page)) page "" ltac:(lia)) as Hread.
  cbn [digits] in Hread.
  assert (Hhead : exists d r,
            0 <= d < 10
            /\ printDigits (S (Z.to_nat page)) page ""
               = String (ascii_of_nat (48 + Z.to_nat d)) r).
  { cbn [printDigits].
    pose proof (Z.mod_pos_bound page 10 ltac:(lia)) as Hmod.
    destruct (page / 10 =? 0); [eauto | by apply printDigits_head]. }
  destruct Hhead as (d & r & Hd & Hs). rewrite Hs in Hread |- *.
  assert (Hcases : d = 0 \/ d = 1 \/ d = 2 \/ d = 3 \/ d = 4
                   \/ d = 5 \/ d = 6 \/ d = 7 \/ d = 8 \/ d = 9) by lia.
  repeat (destruct Hcases as [-> | Hcases]; [exact Hread|]). subst d. exact Hread.
Qed.

Section FoldInsert.

(** The object that [reduce] builds has one property per element, a later
    element replacing an earlier one of the same key. *)

Context {A V : Type} (key : A -> string) (val : A -> V).

Local Abbreviation collect :=
  (foldl (fun (acc : gmap string V) (a : A) => <[key a := val a]> acc)).


Lemma collect_lookup_Some (l : list A) (acc : gmap string V) (k : string) (v : V) :
  collect acc l !! k = Some v ->
  (exists a, a ∈ l /\ key a = k /\ val a = v) \/ acc !! k = Some v.
Proof.
  revert acc. induction l as [|a l IH]; intros acc; simpl.
  - auto.
  - intros H. apply IH in H as [(a' & Hin & Hk & Hv) | H].
    + left. exists a'. split; [apply elem_of_cons; by right | auto].
    + destruct (decide (key a = k)) as [Heq | Hne].
      * rewrite Heq, lookup_insert_eq in H. injection H as <-.
        left. exists a. split; [apply elem_of_cons; by left | auto].
      * rewrite lookup_insert_ne in H by done. auto.
Qed.

Lemma collect_lookup_is_Some (l : list A) (acc : gmap string V) (a : A) :
  a ∈ l -> is_Some (collect acc l !! key a).
Proof.
  assert (Hkeep : forall l acc k, is_Some (acc !! k) -> is_Some (collect acc l !! k)).
  { clear. induction l as [|a l IH]; intros acc k H; simpl; [done|].
    apply IH. destruct (decide (key a = k)) as [<- | Hne].
    - rewrite lookup_insert_eq. eauto.
    - by rewrite lookup_insert_ne. }
  revert acc. induction l as [|b l IH]; intros acc Hin; simpl.
  - by apply elem_of_nil in Hin.
  - apply elem_of_cons in Hin as [-> | Hin].
    + apply Hkeep. rewrite lookup_insert_eq. eauto.
    + by apply IH.
Qed.

End FoldInsert.

(** The rows of a page: at most [limit] rows from index [offset] on. *)
Lemma window_elem_of {A} (l : list A) (offset limit : nat) (x : A) :
  x ∈ take limit (drop offset l) <->
  exists i, (i < limit)%nat /\ l !! (offset + i)%nat = Some x.
Proof.
  rewrite elem_of_take. split.
  - intros (i & Hi & Hlt). exists i. by rewrite lookup_drop in Hi.
  - intros (i & Hlt & Hi). exists i. by rewrite lookup_drop.
Qed.

(** ** GET /api/catalog-assets/ *)

Section CatalogAssets.

Variable parsedDoc : Config.
Variable tbl : list Catalog.
Variable dirs : gmap string (gmap string (list byte)).

(** The [assets] object of the rows from index [offset] on. *)
Local Abbreviation assetsFrom offset :=
  (foldl (fun (acc : gmap string PublicFields) asset =>
            <[package_name asset := publicFields asset]> acc)
         ∅ (take 20 (drop offset tbl))).

Local Abbreviation pagesOf := (ceilDiv (Z.of_nat (length tbl)) 20).

Local Abbreviation positiveError := (BError "Page must be a positive number!").

(** What the handler does, by the value of [pageNum] and the engine. *)
Lemma catalogAssets_run (page : option string) :
  let pageNum := orNum (parseInt page) 1 in
  let offset := (pageNum - 1) * 20 in
  serve (catalogAssetsHandler parsedDoc page) tbl dirs =
  (inr tt,
   {| table := tbl; assetDirs := dirs;
      reply :=
        if pageNum <? 1 then
          {| statusCode :=
               if (offset <? - 2 ^ 63) || db_postgres parsedDoc then 500 else 400;
             sent := [(400, positiveError)] |}
        else if 2 ^ 63 <=? offset then
          {| statusCode := 500; sent := [(500, BError "An error occured")] |}
        else {| statusCode := 200;
                sent := [(200, BAssets (assetsFrom (Z.to_nat offset)) pagesOf)] |}
   |}).
Proof.
  intros pageNum offset.
  unfold serve, catalogAssetsHandler, tryCatch, mbind, M_bind, mret, M_ret,
    status, send, count, findAll.
  fold pageNum. fold offset. cbn [table assetDirs reply statusCode sent freshReply].
  destruct (Z.ltb_spec pageNum 1) as [Hlt | Hge]; cbn [table assetDirs reply statusCode sent].
  - assert (Hneg : (offset <? 0) = true) by (apply Z.ltb_lt; unfold offset; lia).
    assert (Hmax : (2 ^ 63 <=? offset) = false) by (apply Z.leb_gt; unfold offset; lia).
    rewrite Hneg, Hmax, orb_false_r. cbn [andb].
    destruct (offset <? - 2 ^ 63); cbn [orb table assetDirs reply statusCode sent];
      [reflexivity|].
    destruct (db_postgres parsedDoc); cbn [table assetDirs reply statusCode sent];
      reflexivity.
  - assert (Hneg : (offset <? 0) = false) by (apply Z.ltb_ge; unfold offset; lia).
    assert (Hmin : (offset <? - 2 ^ 63) = false) by (apply Z.ltb_ge; unfold offset; lia).
    rewrite Hneg, Hmin. cbn [orb andb].
    destruct (2 ^ 63 <=? offset); cbn [table assetDirs reply statusCode sent];
      reflexivity.
Qed.

End CatalogAssets.








(** ** The write endpoints *)

Section WriteEndpoints.

Variable parsedDoc : Config.
Variable tbl : list Catalog.
Variable dirs : gmap string (gmap string (list byte)).

(** A request answered once with [{status: msg}] under [code], the table
    and the directories untouched. *)
Local Abbreviation rejected code msg :=
  (@inr Exn unit tt,
   {| table := tbl; assetDirs := dirs;
      reply := {| statusCode := code%Z; sent := [(code%Z, BStatus msg)] |} |}).



Lemma verifyReq_create_ok headers :
  marketplace_enabled parsedDoc = true ->
  psk headers = Some (marketplace_psk parsedDoc) ->
  verifyReq parsedDoc headers false None = {| vstatus := 200; verror := None |}.
Proof.
  intros H Hpsk. unfold verifyReq. rewrite H. cbn [negb].
  rewrite bool_decide_eq_true_2 by done. reflexivity.
Qed.

(** A request that passes the flag and the credential but names no
    package is answered with status 500. *)
Lemma verifyReq_no_packagename headers data :
  marketplace_enabled parsedDoc = true ->
  psk headers = Some (marketplace_psk parsedDoc) ->
  truthyStr (packagename headers) = false ->
  verifyReq parsedDoc headers true data
    = {| vstatus := 500; verror := Some "No packagename defined!" |}.
Proof.
  intros H Hpsk Hname. unfold verifyReq. rewrite H. cbn [negb].
  rewrite bool_decide_eq_true_2 by done. rewrite Hname. reflexivity.
Qed.

(** A verification that passes leaves status 200, and, for an upload,
    means the flag is on, the credential matches, a package is named and
    a file was sent. *)
Lemma verifyReq_upload_passes headers data :
  verror (verifyReq parsedDoc headers true data) = None ->
  vstatus (verifyReq parsedDoc headers true data) = 200
  /\ marketplace_enabled parsedDoc = true
  /\ psk headers = Some (marketplace_psk parsedDoc)
  /\ (exists target, packagename headers = Some target /\ target <> "")
  /\ is_Some data.
Proof.
  unfold verifyReq.
  destruct (marketplace_enabled parsedDoc); cbn [negb]; [|discriminate].
  destruct (bool_decide_reflect (psk headers = Some (marketplace_psk parsedDoc)))
    as [Hpsk|]; cbn [negb]; [|discriminate].
  destruct (packagename headers) as [target|]; cbn [truthyStr negb andb]; [|discriminate].
  destruct (String.eqb_spec target "") as [|Hne]; cbn [negb]; [discriminate|].
  destruct (bool_decide_reflect (is_Some data)) as [Hdata|]; cbn [negb]; [|discriminate].
  intros _. eauto 10.
Qed.

Lemma verifyReq_create_passes headers :
  verror (verifyReq parsedDoc headers false None) = None ->
  verifyReq parsedDoc headers false None = {| vstatus := 200; verror := None |}.
Proof.
  unfold verifyReq.
  destruct (marketplace_enabled parsedDoc); cbn [negb]; [|discriminate].
  destruct (bool_decide (psk headers = Some (marketplace_psk parsedDoc)));
    cbn [negb andb]; [reflexivity | discriminate].
Qed.

(** What create-package does once verification has passed. *)
Lemma createPackage_run headers body :
  verror (verifyReq parsedDoc headers false None) = None ->
  serve (createPackageHandler parsedDoc headers body) tbl dirs =
  if existsb (fun r => String.eqb (package_name r) (b_uuid body)) tbl
  then (inl UniqueConstraintError,
        {| table := tbl; assetDirs := dirs; reply := freshReply |})
  else
    match dirs !! b_uuid body with
    | Some _ =>
        (inr tt,
         {| table := tbl ++ [catalogOfBody body]; assetDirs := dirs;
            reply := {| statusCode := 500;
                        sent := [(500, BStatus "Package already exists!")] |} |})
    | None =>
        (inr tt,
         {| table := tbl ++ [catalogOfBody body];
            assetDirs := <[b_uuid body := ∅]> dirs;
            reply := {| statusCode := 200;
                        sent := [(200, BStatus "Package created successfully!")] |} |})
    end.
Proof.
  intros Hpass. apply verifyReq_create_passes in Hpass.
  unfold serve, createPackageHandler. rewrite Hpass. cbn [verror vstatus].
  unfold tryCatch, mbind, M_bind, create, access, mkdir, status, send.
  cbn [table assetDirs reply catalogOfBody package_name].
  destruct (existsb _ tbl); [reflexivity|].
  cbn [table assetDirs reply].
  destruct (dirs !! b_uuid body) eqn:Hdir; cbn [table assetDirs reply statusCode sent];
    rewrite ?Hdir; reflexivity.
Qed.

(** What upload-asset does once verification has passed. *)
Lemma uploadAsset_run headers target d :
  verror (verifyReq parsedDoc headers true (Some d)) = None ->
  packagename headers = Some target ->
  serve (uploadAssetHandler parsedDoc headers (Some d)) tbl dirs =
  match dirs !! target with
  | None =>
      rejected 500 "File couldn't be uploaded! (Package most likely doesn't exist)"
  | Some files =>
      (inr tt,
       {| table := tbl;
          assetDirs := <[target := <[filename d := delivered (file d)]> files]> dirs;
          reply :=
            match file d with
            | Complete _ =>
                {| statusCode := 200;
                   sent := [(200, BStatus "File uploaded successfully!")] |}
            | Broken _ =>
                {| statusCode := 500;
                   sent := [(500, BStatus
                       "File couldn't be uploaded! (Package most likely doesn't exist)")] |}
            end |})
  end.
Proof.
  intros Hpass Htarget.
  destruct (verifyReq_upload_passes _ _ Hpass) as (Hst & _).
  unfold serve, uploadAssetHandler. rewrite Hpass, Hst, Htarget.
  unfold tryCatch, mbind, M_bind, mret, M_ret, pipeline, status, send.
  cbn [table assetDirs reply default from_option id].
  destruct (dirs !! target) as [files|]; cbn [table assetDirs reply statusCode sent].
  - destruct (file d); reflexivity.
  - reflexivity.
Qed.

End WriteEndpoints.

(** The upload route on a multipart body is the handler on its file; on
    any other body [request.file()] throws before anything else is done. *)
Lemma uploadAssetRoute_multipart (parsedDoc : Config) (tbl : list Catalog)
    (dirs : gmap string (gmap string (list byte)))
    (headers : Headers) (data : option MultipartFile) :
  serve (uploadAssetRoute parsedDoc headers (Multipart data)) tbl dirs
  = serve (uploadAssetHandler parsedDoc headers data) tbl dirs.
Proof. reflexivity. Qed.

Lemma uploadAssetRoute_not_multipart (parsedDoc : Config) (tbl : list Catalog)
    (dirs : gmap string (gmap string (list byte))) (headers : Headers) :
  serve (uploadAssetRoute parsedDoc headers NotMultipart) tbl dirs
  = (inl InvalidMultipartContentTypeError,
     {| table := tbl; assetDirs := dirs; reply := freshReply |}).
Proof. reflexivity. Qed.




(** C5, at its failing input: an upload that passes the flag and the
    credential and carries a file but no [packagename] header is answered
    with status 500 and [{status: "No packagename defined!"}], a 5xx
    status, where the missing-file branch next to it answers 400. *)
Theorem uploadAsset_missing_packagename_is_500 :
  serve (uploadAssetHandler Sample.sqliteDoc (Sample.keyed None) (Some Sample.cover))
        [Sample.aurora] {[ "pkg-1" := ∅ ]}
  = (inr tt,
     {| table := [Sample.aurora]; assetDirs := {[ "pkg-1" := ∅ ]};
        reply := {| statusCode := 500;
                    sent := [(500, BStatus "No packagename defined!")] |} |})
  /\ serve (uploadAssetHandler Sample.sqliteDoc (Sample.keyed (Some "pkg-1")) None)
        [Sample.aurora] {[ "pkg-1" := ∅ ]}
  = (inr tt,
     {| table := [Sample.aurora]; assetDirs := {[ "pkg-1" := ∅ ]};
        reply := {| statusCode := 400;
                    sent := [(400, BStatus "No file uploaded!")] |} |}).
Proof. split; reflexivity. Qed.

(** C3, at its failing inputs: two create-package requests in
    succession, both passing the flag and the credential and carrying the
    same identifier.  Whatever the table and the directories were, the
    insert of the second request is refused by the uniqueness of
    [package_name]; the violation escapes the handler before the
    directory check that would report "Package already exists!", so the
    handler reports no conflict: it sends nothing.  The second request
    leaves the directories and the table exactly as the first one left
    them. *)
Theorem createPackage_twice_conflict
    (parsedDoc : Config) (tbl : list Catalog)
    (dirs : gmap string (gmap string (list byte)))
    (headers1 headers2 : Headers) (body1 body2 : CreateBody) :
  marketplace_enabled parsedDoc = true ->
  psk headers1 = Some (marketplace_psk parsedDoc) ->
  psk headers2 = Some (marketplace_psk parsedDoc) ->
  b_uuid body2 = b_uuid body1 ->
  let first := serve (createPackageHandler parsedDoc headers1 body1) tbl dirs in
  let second :=
    serve (createPackageHandler parsedDoc headers2 body2)
          (table first.2) (assetDirs first.2) in
  second.1 = inl UniqueConstraintError
  /\ assetDirs second.2 = assetDirs first.2
  /\ table second.2 = table first.2
  /\ sent (reply second.2) = [].
Proof.
  intros Hon Hpsk1 Hpsk2 Huuid first second.
  assert (Hpass1 : verror (verifyReq parsedDoc headers1 false None) = None)
    by (rewrite verifyReq_create_ok; done).
  assert (Hpass2 : verror (verifyReq parsedDoc headers2 false None) = None)
    by (rewrite verifyReq_create_ok; done).
  assert (Htaken :
    existsb (fun r => String.eqb (package_name r) (b_uuid body2)) (table first.2) = true).
  { subst first. rewrite createPackage_run by done. rewrite Huuid.
    destruct (existsb _ tbl) eqn:Hex; [exact Hex|].
    destruct (dirs !! b_uuid body1); cbn [snd table];
      rewrite existsb_app; cbn [existsb catalogOfBody package_name];
      rewrite String.eqb_refl, orb_true_r; reflexivity. }
  subst second. rewrite createPackage_run by done. rewrite Htaken.
  repeat split.
Qed.

Lemma createPackage_twice_conflict_witness :
  let first :=
    serve (createPackageHandler Sample.sqliteDoc (Sample.keyed None) Sample.auroraBody) [] ∅ in
  first = (inr tt,
           {| table := [Sample.aurora]; assetDirs := {[ "pkg-1" := ∅ ]};
              reply := {| statusCode := 200;
                          sent := [(200, BStatus "Package created successfully!")] |} |})
  /\ (serve (createPackageHandler Sample.sqliteDoc (Sample.keyed None) Sample.auroraBody)
            (table first.2) (assetDirs first.2)).1
     = inl UniqueConstraintError.
Proof.
  split.
  - reflexivity.
  - apply (createPackage_twice_conflict Sample.sqliteDoc [] ∅ (Sample.keyed None)
             (Sample.keyed None) Sample.auroraBody Sample.auroraBody);
      reflexivity.
Defined.

(** C4: when create-package passes verification, the identifier is not in
    the table (so the insert goes through) and the asset directory is
    already there, the request is answered once with status 500 and
    [{status: "Package already exists!"}]; the row inserted before the
    check stays in the table, and the directories are unchanged. *)
Theorem createPackage_conflict_keeps_row
    (parsedDoc : Config) (tbl : list Catalog)
    (dirs : gmap string (gmap string (list byte)))
    (headers : Headers) (body : CreateBody) :
  verror (verifyReq parsedDoc headers false None) = None ->
  (forall row, row ∈ tbl -> package_name row <> b_uuid body) ->
  is_Some (dirs !! b_uuid body) ->
  serve (createPackageHandler parsedDoc headers body) tbl dirs
  = (inr tt,
     {| table := tbl ++ [catalogOfBody body]; assetDirs := dirs;
        reply := {| statusCode := 500;
                    sent := [(500, BStatus "Package already exists!")] |} |}).
Proof.
  intros Hpass Hfresh [files Hdir].
  rewrite createPackage_run by done.
  assert (Hex : existsb (fun r => String.eqb (package_name r) (b_uuid body)) tbl = false).
  { apply not_true_is_false. intros Hex.
    apply existsb_exists in Hex as (row & Hin & Heq).
    apply String.eqb_eq in Heq. apply list_elem_of_In in Hin. by eapply Hfresh. }
  rewrite Hex, Hdir. reflexivity.
Qed.

Lemma createPackage_conflict_keeps_row_witness :
  serve (createPackageHandler Sample.sqliteDoc (Sample.keyed None) Sample.auroraBody)
        [] {[ "pkg-1" := ∅ ]}
  = (inr tt,
     {| table := [Sample.aurora]; assetDirs := {[ "pkg-1" := ∅ ]};
        reply := {| statusCode := 500;
                    sent := [(500, BStatus "Package already exists!")] |} |}).
Proof.
  apply (createPackage_conflict_keeps_row Sample.sqliteDoc [] {[ "pkg-1" := ∅ ]}
           (Sample.keyed None) Sample.auroraBody).
  - reflexivity.
  - intros row Hin. by apply elem_of_nil in Hin.
  - exists ∅. reflexivity.
Defined.

(** Uploads under plain names.  An upload with a multipart body that
    passes verification and names, with a plain package name and a plain
    file name, a package without asset directory is answered once with
    status 500 and the upload-failure message, and nothing is written.
    If the directory exists and the stream ends normally after [bytes],
    the request is answered once with status 200 and "File uploaded
    successfully!", and afterwards the directory holds, under the file
    name of the upload, exactly [bytes].  (Outside plain names the path
    of the upload is what [new URL] makes of the two names: C7 does not
    hold there.) *)
Lemma uploadAsset_round_trip
    (parsedDoc : Config) (tbl : list Catalog)
    (dirs : gmap string (gmap string (list byte)))
    (headers : Headers) (target : string) (d : MultipartFile) :
  verror (verifyReq parsedDoc headers true (Some d)) = None ->
  packagename headers = Some target ->
  plainName target ->
  plainName (filename d) ->
  let result := serve (uploadAssetRoute parsedDoc headers (Multipart (Some d))) tbl dirs in
  (dirs !! target = None ->
     result
     = (inr tt,
        {| table := tbl; assetDirs := dirs;
           reply :=
             {| statusCode := 500;
                sent := [(500, BStatus
                    "File couldn't be uploaded! (Package most likely doesn't exist)")] |} |}))
  /\ (forall bytes,
        is_Some (dirs !! target) ->
        file d = Complete bytes ->
        result.1 = inr tt
        /\ reply result.2
           = {| statusCode := 200;
                sent := [(200, BStatus "File uploaded successfully!")] |}
        /\ table result.2 = tbl
        /\ (exists files,
              assetDirs result.2 !! target = Some files
              /\ files !! filename d = Some bytes)
        /\ (forall other, other <> target ->
              assetDirs result.2 !! other = dirs !! other)).
Proof.
  intros Hpass Htarget _ _ result. subst result.
  rewrite uploadAssetRoute_multipart, (uploadAsset_run _ _ _ _ target) by done.
  split.
  - intros Hnone. rewrite Hnone. reflexivity.
  - intros bytes [files Hdir] Hfile. rewrite Hdir, Hfile. cbn [fst snd reply table assetDirs delivered].
    split; [reflexivity|]. split; [reflexivity|]. split; [reflexivity|]. split.
    + eexists. rewrite lookup_insert_eq. split; [reflexivity|]. apply lookup_insert_eq.
    + intros other Hne. by rewrite lookup_insert_ne.
Qed.

(** ** The package page *)

Section FetchedRecord.

Variable d : PublicFields.

Local Abbreviation assetsJson := (list_to_map (detailsFields d) : gmap string Json).

Lemma details_background_video :
  assetsJson !! "background_video" = Some (jsonOfString (pf_background_video d)).
Proof. reflexivity. Qed.

(** The template reads [backgroundImage]; the record carries
    [background_image]. *)
Lemma details_backgroundImage : assetsJson !! "backgroundImage" = None.
Proof. reflexivity. Qed.

Lemma details_image : assetsJson !! "image" = Some (JStr (pf_image d)).
Proof. reflexivity. Qed.

Lemma details_title : assetsJson !! "title" = Some (JStr (pf_title d)).
Proof. reflexivity. Qed.

Lemma details_error : assetsJson !! "error" = None.
Proof. reflexivity. Qed.

(** On a fetched record the card shows the video when [background_video]
    is a non-empty string and the plain image otherwise; the
    background-image block is never rendered, whatever [background_image]
    holds. *)
Lemma renderMedia_details (packageName : string) :
  renderMedia packageName assetsJson =
  if truthyStr (pf_background_video d)
  then [Video ("/packages/" +:+ packageName +:+ "/" +:+ default "" (pf_background_video d))]
  else [Image ("/packages/" +:+ packageName +:+ "/" +:+ pf_image d) (pf_title d)].
Proof.
  unfold renderMedia, truthyProp, interpolate.
  rewrite details_background_video, details_backgroundImage, details_image, details_title.
  destruct (pf_background_video d) as [v|];
    cbn [jsonOfString truthy truthyStr toString default from_option id].
  - destruct (String.eqb v ""); reflexivity.
  - reflexivity.
Qed.

End FetchedRecord.

Lemma fetchAssetsJson_found
    (tbl : list Catalog) (dirs : gmap string (gmap string (list byte)))
    (packageName : string) (row : Catalog) :
  List.find (fun r => String.eqb (package_name r) packageName) tbl = Some row ->
  fetchAssetsJson tbl dirs packageName = list_to_map (detailsFields (publicFields row)).
Proof.
  intros Hfind.
  unfold fetchAssetsJson, serve, packageHandler, tryCatch, mbind, M_bind, findOne.
  cbn [table]. rewrite Hfind. reflexivity.
Qed.

(** C1, at its failing input: the record of [pkg-1] declares
    [background_image] and no [background_video]; the page fetches it and
    renders the plain image of [image], not the background-image block,
    because the template tests the key [backgroundImage], which the record
    does not carry. *)
Theorem background_image_record_renders_plain_image :
  (fetchAssetsJson [Sample.aurora] ∅ "pkg-1") !! "background_image" = Some (JStr "bg.png")
  /\ (fetchAssetsJson [Sample.aurora] ∅ "pkg-1") !! "background_video" = Some JNull
  /\ render "pkg-1" (fetchAssetsJson [Sample.aurora] ∅ "pkg-1")
     = PackageView [Image "/packages/pkg-1/cover.png" "Aurora"] renderedButtons.
Proof. split; [|split]; reflexivity. Qed.

(** The same holds for every record the page can fetch: its card never
    shows the background-image block. *)
Corollary fetched_record_never_renders_background_image
    (tbl : list Catalog) (dirs : gmap string (gmap string (list byte)))
    (packageName : string) (row : Catalog) (url : string) :
  List.find (fun r => String.eqb (package_name r) packageName) tbl = Some row ->
  BackgroundImage url ∉ renderMedia packageName (fetchAssetsJson tbl dirs packageName).
Proof.
  intros Hfind. rewrite (fetchAssetsJson_found _ _ _ _ Hfind), renderMedia_details.
  destruct (truthyStr _); intros Hin; apply list_elem_of_singleton in Hin; discriminate.
Qed.

(** *** Install state on page load *)

Lemma indexOfFrom_spec (x : string) (l : list string) (i : Z) :
  0 <= i ->
  (indexOfFrom x l i = -1 /\ x ∉ l) \/ (i <= indexOfFrom x l i /\ x ∈ l).
Proof.
  revert i. induction l as [|y l IH]; intros i Hi; cbn [indexOfFrom].
  - left. split; [reflexivity | apply not_elem_of_nil].
  - destruct (String.eqb_spec y x) as [-> | Hne].
    + right. split; [lia | apply elem_of_cons; by left].
    + destruct (IH (i + 1) ltac:(lia)) as [(Heq & Hnot) | (Hle & Hin)].
      * left. split; [exact Heq|]. rewrite elem_of_cons. intros [Hx | Hx]; [congruence | done].
      * right. split; [lia | apply elem_of_cons; by right].
Qed.

Lemma indexOf_found (x : string) (l : list string) :
  negb (indexOf x l =? -1) = true <-> x ∈ l.
Proof.
  unfold indexOf. rewrite negb_true_iff, Z.eqb_neq.
  destruct (indexOfFrom_spec x l 0 ltac:(lia)) as [(Heq & Hnot) | (Hle & Hin)].
  - split; [intros H; by destruct H | intros H; by destruct Hnot].
  - split; [done | intros _; lia].
Qed.

Lemma find_plugin_is_Some (packageName : string) (l : list Plugin) :
  is_Some (List.find (fun p => String.eqb (name p) packageName
                               && negb (bool_decide (remove p = Some true))) l)
  <-> exists p, p ∈ l /\ name p = packageName /\ remove p <> Some true.
Proof.
  split.
  - intros [p Hfind]. apply find_some in Hfind as (Hin & Hp).
    apply andb_true_iff in Hp as (Hname & Hrem).
    exists p. split; [by apply list_elem_of_In|]. split.
    + by apply String.eqb_eq.
    + apply negb_true_iff, bool_decide_eq_false in Hrem. exact Hrem.
  - intros (p & Hin & Hname & Hrem).
    destruct (List.find _ l) as [q|] eqn:Hfind; [eauto|].
    apply list_elem_of_In in Hin.
    pose proof (find_none _ _ Hfind p Hin) as Hp. cbv beta in Hp.
    rewrite Hname, String.eqb_refl, bool_decide_eq_false_2 in Hp by done.
    discriminate.
Qed.

(** C9: run on the buttons as the template renders them, [fn] leaves the
    page displaying [Installed] (uninstall shown, install hidden) exactly
    when the identifier is in the persisted theme collection or names a
    persisted plugin descriptor whose [remove] is not [true], and
    displaying [NotInstalled] (install shown, uninstall hidden) exactly
    when it is not; the result depends on nothing but the identifier and
    the two persisted collections read at the call. *)
Theorem install_state_on_load (packageName : string) (localStorage : LocalStorage) :
  (displayedState (fn packageName localStorage renderedButtons) = Some Installed
   <-> persistedAsInstalled packageName localStorage)
  /\ (displayedState (fn packageName localStorage renderedButtons) = Some NotInstalled
      <-> ~ persistedAsInstalled packageName localStorage).
Proof.
  unfold persistedAsInstalled, fn.
  set (cssItems := default [] (themes localStorage)).
  set (pluginItems := default [] (plugins localStorage)).
  set (found := List.find _ pluginItems).
  pose proof (indexOf_found packageName cssItems) as Hcss.
  pose proof (find_plugin_is_Some packageName pluginItems) as Hplug.
  fold found in Hplug.
  assert (Hdec : (negb (indexOf packageName cssItems =? -1) || bool_decide (is_Some found)) = true
                 <-> packageName ∈ cssItems
                     \/ exists p, p ∈ pluginItems /\ name p = packageName /\ remove p <> Some true).
  { rewrite orb_true_iff, Hcss, bool_decide_eq_true, Hplug. reflexivity. }
  destruct (negb (indexOf packageName cssItems =? -1) || bool_decide (is_Some found)).
  - assert (Hyes : packageName ∈ cssItems
                   \/ exists p, p ∈ pluginItems /\ name p = packageName /\ remove p <> Some true)
      by (by apply Hdec).
    change (displayedState _) with (Some Installed).
    split; split; done.
  - assert (Hno : ~ (packageName ∈ cssItems
                   \/ exists p, p ∈ pluginItems /\ name p = packageName /\ remove p <> Some true))
      by (intros Hyes; apply Hdec in Hyes; discriminate).
    change (displayedState _) with (Some NotInstalled).
    split; split; done.
Qed.

(** A theme listed in storage, a plugin marked as removed, and a live
    plugin. *)
Example install_state_samples :
  displayedState (fn "pkg-1" {| themes := Some ["pkg-0"; "pkg-1"]; plugins := None |}
                     renderedButtons) = Some Installed
  /\ displayedState (fn "pkg-2" {| themes := None; plugins := Some [Sample.adblock] |}
                        renderedButtons) = Some Installed
  /\ displayedState
       (fn "pkg-2"
           {| themes := Some ["pkg-1"];
              plugins := Some [{| name := "pkg-2"; src := "adblock.js"; ptype := "page";
                                  remove := Some true |}] |}
           renderedButtons) = Some NotInstalled
  /\ displayedState (fn "pkg-1" {| themes := None; plugins := None |} renderedButtons)
     = Some NotInstalled.
Proof. repeat (split; [reflexivity|]). reflexivity. Qed.

(** * Further properties of the server *)

(** ** Rows and names *)

Lemma uniqueNames_inj (tbl : list Catalog) (a b : Catalog) :
  uniqueNames tbl -> a ∈ tbl -> b ∈ tbl -> package_name a = package_name b -> a = b.
Proof.
  intros Huniq Ha Hb Hname.
  apply list_elem_of_lookup in Ha as [i Hi]. apply list_elem_of_lookup in Hb as [j Hj].
  assert (Hij : i = j).
  { apply (NoDup_lookup (package_name <$> tbl) i j (package_name a) Huniq).
    - by rewrite list_lookup_fmap, Hi.
    - by rewrite list_lookup_fmap, Hj, Hname. }
  subst j. congruence.
Qed.

Lemma find_by_name_Some (tbl : list Catalog) (name : string) (row : Catalog) :
  List.find (fun r => String.eqb (package_name r) name) tbl = Some row ->
  row ∈ tbl /\ package_name row = name.
Proof.
  intros Hfind. apply find_some in Hfind as (Hin & Heq).
  split; [by apply list_elem_of_In | by apply String.eqb_eq].
Qed.

Lemma find_by_name_None (tbl : list Catalog) (name : string) :
  List.find (fun r => String.eqb (package_name r) name) tbl = None <->
  forall row, row ∈ tbl -> package_name row <> name.
Proof.
  split.
  - intros Hfind row Hin Hname. apply list_elem_of_In in Hin.
    pose proof (find_none _ _ Hfind row Hin) as Hf. cbv beta in Hf.
    rewrite Hname, String.eqb_refl in Hf. discriminate.
  - intros Hfresh. destruct (List.find _ tbl) as [row|] eqn:Hfind; [|reflexivity].
    apply find_by_name_Some in Hfind as (Hin & Hname). by destruct (Hfresh row Hin).
Qed.

Lemma find_by_name_unique (tbl : list Catalog) (row : Catalog) :
  uniqueNames tbl -> row ∈ tbl ->
  List.find (fun r => String.eqb (package_name r) (package_name row)) tbl = Some row.
Proof.
  intros Huniq Hin.
  destruct (List.find _ tbl) as [row'|] eqn:Hfind.
  - apply find_by_name_Some in Hfind as (Hin' & Hname).
    f_equal. by apply (uniqueNames_inj tbl).
  - pose proof (proj1 (find_by_name_None tbl (package_name row)) Hfind) as Hfresh.
    by destruct (Hfresh row Hin).
Qed.

Lemma find_by_name_snoc (tbl : list Catalog) (row : Catalog) :
  (forall r, r ∈ tbl -> package_name r <> package_name row) ->
  List.find (fun r => String.eqb (package_name r) (package_name row)) (tbl ++ [row])
  = Some row.
Proof.
  intros Hfresh. induction tbl as [|r tbl IH]; cbn [app List.find].
  - by rewrite String.eqb_refl.
  - destruct (String.eqb_spec (package_name r) (package_name row)) as [Heq | _].
    + destruct (Hfresh r); [apply elem_of_cons; by left | done].
    + apply IH. intros r' Hin. apply Hfresh. apply elem_of_cons. by right.
Qed.

Lemma existsb_by_name_false (tbl : list Catalog) (name : string) :
  existsb (fun r => String.eqb (package_name r) name) tbl = false <->
  forall row, row ∈ tbl -> package_name row <> name.
Proof.
  split.
  - intros Hex row Hin Hname.
    assert (Ht : existsb (fun r => String.eqb (package_name r) name) tbl = true).
    { apply existsb_exists. exists row. split; [by apply list_elem_of_In|].
      by apply String.eqb_eq. }
    congruence.
  - intros Hfresh. apply not_true_is_false. intros Hex.
    apply existsb_exists in Hex as (row & Hin & Heq).
    apply String.eqb_eq in Heq. apply list_elem_of_In in Hin. by eapply Hfresh.
Qed.

(** ** GET /api/packages/:package *)

Lemma packageHandler_run (tbl : list Catalog)
    (dirs : gmap string (gmap string (list byte))) (package : string) :
  serve (packageHandler package) tbl dirs =
  (inr tt,
   {| table := tbl; assetDirs := dirs;
      reply :=
        match List.find (fun r => String.eqb (package_name r) package) tbl with
        | Some row => {| statusCode := 200;
                         sent := [(200, BDetails (publicFields row))] |}
        | None => {| statusCode := 404;
                     sent := [(404, BError "Package not found!")] |}
        end |}).
Proof.
  unfold serve, packageHandler, tryCatch, mbind, M_bind, findOne, status, send.
  cbn [table]. destruct (List.find _ tbl); reflexivity.
Qed.

(** X1: the single-package lookup answers 404 with
    [{error: "Package not found!"}] exactly when no row of the table
    carries the requested name. *)
Theorem package_not_found_iff (tbl : list Catalog)
    (dirs : gmap string (gmap string (list byte))) (package : string) :
  sent (reply (serve (packageHandler package) tbl dirs).2)
    = [(404, BError "Package not found!")]
  <-> forall row, row ∈ tbl -> package_name row <> package.
Proof.
  rewrite packageHandler_run, <- find_by_name_None. cbn [snd reply].
  destruct (List.find _ tbl); cbn [sent]; split; intros H; done.
Qed.

(** X2: on a table without repeated names, looking a stored row up by
    its name answers 200 with the public fields of that very row. *)
Theorem package_found_returns_row (tbl : list Catalog)
    (dirs : gmap string (gmap string (list byte))) (row : Catalog) :
  uniqueNames tbl ->
  row ∈ tbl ->
  serve (packageHandler (package_name row)) tbl dirs
  = (inr tt,
     {| table := tbl; assetDirs := dirs;
        reply := {| statusCode := 200;
                    sent := [(200, BDetails (publicFields row))] |} |}).
Proof.
  intros Huniq Hin. rewrite packageHandler_run, find_by_name_unique by done. reflexivity.
Qed.

Lemma package_found_returns_row_witness :
  serve (packageHandler "pkg-1") [Sample.aurora] ∅
  = (inr tt,
     {| table := [Sample.aurora]; assetDirs := ∅;
        reply := {| statusCode := 200;
                    sent := [(200, BDetails (publicFields Sample.aurora))] |} |}).
Proof.
  apply (package_found_returns_row [Sample.aurora] ∅ Sample.aurora).
  - apply NoDup_singleton.
  - apply list_elem_of_singleton. reflexivity.
Defined.

(** X3: the two read endpoints never let an exception escape, always
    answer, and leave the table and the directories as they found them,
    whatever the query, the engine and the stored rows. *)
Theorem read_endpoints_read_only (parsedDoc : Config) (tbl : list Catalog)
    (dirs : gmap string (gmap string (list byte)))
    (page : option string) (package : string) :
  let listing := serve (catalogAssetsHandler parsedDoc page) tbl dirs in
  let lookup := serve (packageHandler package) tbl dirs in
  (listing.1 = inr tt /\ table listing.2 = tbl /\ assetDirs listing.2 = dirs
   /\ sent (reply listing.2) <> [])
  /\ (lookup.1 = inr tt /\ table lookup.2 = tbl /\ assetDirs lookup.2 = dirs
      /\ length (sent (reply lookup.2)) = 1%nat).
Proof.
  cbv zeta. rewrite catalogAssets_run, packageHandler_run. cbv zeta. cbn [fst snd table assetDirs reply].
  split; (split; [reflexivity|]; split; [reflexivity|]; split; [reflexivity|]).
  - destruct (_ <? 1); [|destruct (2 ^ 63 <=? _)]; discriminate.
  - destruct (List.find _ tbl); reflexivity.
Qed.

(** ** More on the listing *)

Section FoldInsertUnique.

Context {A V : Type} (key : A -> string) (val : A -> V).

Local Abbreviation collect :=
  (foldl (fun (acc : gmap string V) (a : A) => <[key a := val a]> acc)).

Lemma NoDup_keys_inj (l : list A) (a b : A) :
  NoDup (key <$> l) -> a ∈ l -> b ∈ l -> key a = key b -> a = b.
Proof.
  intros Hnd Ha Hb Hk.
  apply list_elem_of_lookup in Ha as [i Hi]. apply list_elem_of_lookup in Hb as [j Hj].
  assert (Hij : i = j).
  { apply (NoDup_lookup (key <$> l) i j (key a) Hnd).
    - by rewrite list_lookup_fmap, Hi.
    - by rewrite list_lookup_fmap, Hj, Hk. }
  subst j. congruence.
Qed.

(** Without repeated keys nothing is overwritten: each element is found
    under its key. *)
Lemma collect_lookup_unique (l : list A) (a : A) :
  NoDup (key <$> l) -> a ∈ l -> collect ∅ l !! key a = Some (val a).
Proof.
  intros Hnd Hin.
  destruct (collect_lookup_is_Some key val l ∅ a Hin) as [v Hv].
  rewrite Hv. f_equal.
  apply collect_lookup_Some in Hv as [(a' & Hin' & Hk & Hval) | Hempty].
  - by rewrite <- (NoDup_keys_inj l a' a Hnd Hin' Hin Hk).
  - rewrite lookup_empty in Hempty. discriminate.
Qed.

Lemma collect_size_unique (l : list A) (acc : gmap string V) :
  NoDup (key <$> l) ->
  (forall a, a ∈ l -> acc !! key a = None) ->
  size (collect acc l) = (size acc + length l)%nat.
Proof.
  revert acc. induction l as [|a l IH]; intros acc Hnd Hfresh; cbn [foldl length].
  - lia.
  - rewrite fmap_cons in Hnd. apply NoDup_cons in Hnd as (Hnotin & Hnd).
    rewrite IH.
    + rewrite map_size_insert_None; [lia|]. apply Hfresh, elem_of_cons. by left.
    + exact Hnd.
    + intros b Hb. rewrite lookup_insert_ne.
      * apply Hfresh, elem_of_cons. by right.
      * intros Hk. apply Hnotin. rewrite Hk. by apply list_elem_of_fmap_2.
Qed.

Lemma NoDup_keys_window (l : list A) (offset limit : nat) :
  NoDup (key <$> l) -> NoDup (key <$> take limit (drop offset l)).
Proof.
  intros Hnd. rewrite fmap_take, fmap_drop.
  apply (sublist_NoDup _ (key <$> l)); [exact Hnd|].
  etransitivity; [apply sublist_take | apply sublist_drop].
Qed.

End FoldInsertUnique.

(** The reply to a query that reads as a page number from 1 on, with an
    offset the store accepts. *)
Lemma catalogAssets_page (parsedDoc : Config) (tbl : list Catalog)
    (dirs : gmap string (gmap string (list byte))) (query : option string) (page : Z) :
  parseInt query = Some page ->
  1 <= page ->
  (page - 1) * 20 < 2 ^ 63 ->
  sent (reply (serve (catalogAssetsHandler parsedDoc query) tbl dirs).2)
  = [(200,
      BAssets
        (foldl (fun (acc : gmap string PublicFields) asset =>
                  <[package_name asset := publicFields asset]> acc)
               ∅ (take 20 (drop (Z.to_nat ((page - 1) * 20)) tbl)))
        (ceilDiv (Z.of_nat (length tbl)) 20))].
Proof.
  intros Hparse Hpage Hbound. rewrite catalogAssets_run. cbv zeta.
  assert (HpageNum : orNum (parseInt query) 1 = page).
  { rewrite Hparse. cbn [orNum]. destruct (Z.eqb_spec page 0); [lia | reflexivity]. }
  rewrite HpageNum.
  assert (Hf : (page <? 1) = false) by (apply Z.ltb_ge; lia).
  assert (Hmax : (2 ^ 63 <=? (page - 1) * 20) = false) by (apply Z.leb_gt; lia).
  rewrite Hf, Hmax. reflexivity.
Qed.

(** A page that was answered with a listing was answered with the rows of
    its window. *)
Lemma catalogAssets_listed (parsedDoc : Config) (tbl : list Catalog)
    (dirs : gmap string (gmap string (list byte))) (query : option string) (page : Z)
    (assets : gmap string PublicFields) (pages : Z) :
  parseInt query = Some page ->
  1 <= page ->
  sent (reply (serve (catalogAssetsHandler parsedDoc query) tbl dirs).2)
    = [(200, BAssets assets pages)] ->
  assets = foldl (fun (acc : gmap string PublicFields) asset =>
                    <[package_name asset := publicFields asset]> acc)
                 ∅ (take 20 (drop (Z.to_nat ((page - 1) * 20)) tbl)).
Proof.
  intros Hparse Hpage Hsent.
  destruct (Z.leb_spec (2 ^ 63) ((page - 1) * 20)) as [Hmax | Hmax].
  - rewrite catalogAssets_run in Hsent. cbv zeta in Hsent.
    assert (HpageNum : orNum (parseInt query) 1 = page).
    { rewrite Hparse. cbn [orNum]. destruct (Z.eqb_spec page 0); [lia | reflexivity]. }
    rewrite HpageNum in Hsent.
    assert (Hf : (page <? 1) = false) by (apply Z.ltb_ge; lia).
    assert (Hm : (2 ^ 63 <=? (page - 1) * 20) = true) by (apply Z.leb_le; lia).
    rewrite Hf, Hm in Hsent. discriminate Hsent.
  - rewrite (catalogAssets_page _ _ _ _ _ Hparse Hpage Hmax) in Hsent.
    by injection Hsent as <- _.
Qed.

(** X4: on a table of fewer than 2^53 rows without repeated names, no
    row is left out of the listing, the one name the listing object cannot
    hold apart: a row at index [i] whose name is not [__proto__] is
    listed, under its name and with its own fields, on page [i/20 + 1],
    and that page is within the page count. *)
Theorem listing_covers_every_row (parsedDoc : Config) (tbl : list Catalog)
    (dirs : gmap string (gmap string (list byte)))
    (query : option string) (i : nat) (row : Catalog) :
  uniqueNames tbl ->
  Z.of_nat (length tbl) < 2 ^ 53 ->
  tbl !! i = Some row ->
  package_name row <> "__proto__" ->
  parseInt query = Some (Z.of_nat i / 20 + 1) ->
  exists assets pages,
    sent (reply (serve (catalogAssetsHandler parsedDoc query) tbl dirs).2)
      = [(200, BAssets assets pages)]
    /\ assets !! package_name row = Some (publicFields row)
    /\ Z.of_nat i / 20 + 1 <= pages.
Proof.
  intros Huniq Hsmall Hrow _ Hparse.
  pose proof (Z.div_pos (Z.of_nat i) 20 ltac:(lia) ltac:(lia)) as Hq.
  pose proof (Z.div_mod (Z.of_nat i) 20 ltac:(lia)) as Hdm.
  pose proof (Z.mod_pos_bound (Z.of_nat i) 20 ltac:(lia)) as Hmod.
  pose proof (lookup_lt_Some _ _ _ Hrow) as Hlen.
  eexists _, _. split; [|split].
  - apply (catalogAssets_page _ _ _ _ _ Hparse); lia.
  - apply (collect_lookup_unique package_name publicFields).
    + by apply NoDup_keys_window.
    + apply window_elem_of. exists (Z.to_nat (Z.of_nat i mod 20)). split; [lia|].
      replace (Z.to_nat ((Z.of_nat i / 20 + 1 - 1) * 20)
               + Z.to_nat (Z.of_nat i mod 20))%nat with i by lia.
      exact Hrow.
  - pose proof (ceilDiv_spec (Z.of_nat (length tbl)) 20 ltac:(lia)) as Hceil.
    lia.
Qed.

Lemma listing_covers_every_row_witness :
  exists assets pages,
    sent (reply (serve (catalogAssetsHandler Sample.sqliteDoc (Some "1"))
                       [Sample.aurora] ∅).2)
      = [(200, BAssets assets pages)]
    /\ assets !! "pkg-1" = Some (publicFields Sample.aurora).
Proof.
  destruct (listing_covers_every_row Sample.sqliteDoc [Sample.aurora] ∅ (Some "1")
              0%nat Sample.aurora) as (assets & pages & Hsent & Hlook & _).
  - apply NoDup_singleton.
  - cbn. lia.
  - reflexivity.
  - discriminate.
  - reflexivity.
  - exists assets, pages. split; [exact Hsent | exact Hlook].
Defined.

(** X5: on a table without repeated names no package is listed twice: a
    name listed on one page is absent from every other page. *)
Theorem listing_pages_disjoint (parsedDoc : Config) (tbl : list Catalog)
    (dirs : gmap string (gmap string (list byte)))
    (query1 query2 : option string) (page1 page2 : Z)
    (assets1 assets2 : gmap string PublicFields) (pages1 pages2 : Z) (name : string) :
  uniqueNames tbl ->
  parseInt query1 = Some page1 -> 1 <= page1 ->
  parseInt query2 = Some page2 -> 1 <= page2 ->
  page1 <> page2 ->
  sent (reply (serve (catalogAssetsHandler parsedDoc query1) tbl dirs).2)
    = [(200, BAssets assets1 pages1)] ->
  sent (reply (serve (catalogAssetsHandler parsedDoc query2) tbl dirs).2)
    = [(200, BAssets assets2 pages2)] ->
  is_Some (assets1 !! name) ->
  assets2 !! name = None.
Proof.
  intros Huniq Hq1 Hp1 Hq2 Hp2 Hne Hs1 Hs2 [f1 Hl1].
  apply (catalogAssets_listed _ _ _ _ _ _ _ Hq1 Hp1) in Hs1 as ->.
  apply (catalogAssets_listed _ _ _ _ _ _ _ Hq2 Hp2) in Hs2 as ->.
  destruct (foldl _ ∅ (take 20 (drop (Z.to_nat ((page2 - 1) * 20)) tbl)) !! name)
    as [f2|] eqn:Hl2; [exfalso | reflexivity].
  apply collect_lookup_Some in Hl1 as [(r1 & Hin1 & Hk1 & _) | Hempty];
    [|rewrite lookup_empty in Hempty; discriminate].
  apply collect_lookup_Some in Hl2 as [(r2 & Hin2 & Hk2 & _) | Hempty];
    [|rewrite lookup_empty in Hempty; discriminate].
  apply window_elem_of in Hin1 as (i1 & Hi1 & Hrow1).
  apply window_elem_of in Hin2 as (i2 & Hi2 & Hrow2).
  assert (Hidx : (Z.to_nat ((page1 - 1) * 20) + i1 = Z.to_nat ((page2 - 1) * 20) + i2)%nat).
  { apply (NoDup_lookup (package_name <$> tbl) _ _ name Huniq).
    - by rewrite list_lookup_fmap, Hrow1, <- Hk1.
    - by rewrite list_lookup_fmap, Hrow2, <- Hk2. }
  lia.
Qed.

Lemma listing_pages_disjoint_witness :
  (∅ : gmap string PublicFields) !! "pkg-1" = None.
Proof.
  apply (listing_pages_disjoint Sample.sqliteDoc [Sample.aurora] ∅ (Some "1") (Some "2")
           1 2 {[ "pkg-1" := publicFields Sample.aurora ]} ∅ 1 1 "pkg-1").
  - apply NoDup_singleton.
  - reflexivity.
  - lia.
  - reflexivity.
  - lia.
  - lia.
  - reflexivity.
  - reflexivity.
  - exists (publicFields Sample.aurora). reflexivity.
Defined.

(** X6: a page past the last row is not an error as long as its offset
    stays below 2^53: the listing answers 200 with an empty [assets]
    object and the same page count.  In particular an empty table lists
    nothing and counts zero pages. *)
Theorem listing_past_the_end (parsedDoc : Config) (tbl : list Catalog)
    (dirs : gmap string (gmap string (list byte))) (query : option string) (page : Z) :
  parseInt query = Some page ->
  1 <= page ->
  (page - 1) * 20 < 2 ^ 53 ->
  Z.of_nat (length tbl) <= (page - 1) * 20 ->
  sent (reply (serve (catalogAssetsHandler parsedDoc query) tbl dirs).2)
    = [(200, BAssets ∅ (ceilDiv (Z.of_nat (length tbl)) 20))]
  /\ (tbl = [] -> ceilDiv (Z.of_nat (length tbl)) 20 = 0).
Proof.
  intros Hparse Hpage Hbound Hpast. split.
  - rewrite (catalogAssets_page _ _ _ _ _ Hparse Hpage) by lia.
    rewrite drop_ge by lia. reflexivity.
  - intros ->. reflexivity.
Qed.

Lemma listing_past_the_end_witness :
  sent (reply (serve (catalogAssetsHandler Sample.sqliteDoc (Some "7")) [Sample.aurora] ∅).2)
  = [(200, BAssets ∅ 1)].
Proof.
  destruct (listing_past_the_end Sample.sqliteDoc [Sample.aurora] ∅ (Some "7") 7)
    as (Hsent & _).
  - reflexivity.
  - lia.
  - lia.
  - cbn. lia.
  - exact Hsent.
Defined.

(** X7: on a table without repeated names and without a row named
    [__proto__], a page whose offset is below 2^53 lists exactly the rows
    of its window: twenty on a full page, the remainder on the last one,
    none beyond. *)
Theorem listing_page_size (parsedDoc : Config) (tbl : list Catalog)
    (dirs : gmap string (gmap string (list byte))) (query : option string) (page : Z) :
  uniqueNames tbl ->
  (forall row, row ∈ tbl -> package_name row <> "__proto__") ->
  parseInt query = Some page ->
  1 <= page ->
  (page - 1) * 20 < 2 ^ 53 ->
  exists assets pages,
    sent (reply (serve (catalogAssetsHandler parsedDoc query) tbl dirs).2)
      = [(200, BAssets assets pages)]
    /\ Z.of_nat (size assets)
       = Z.max 0 (Z.min 20 (Z.of_nat (length tbl) - (page - 1) * 20)).
Proof.
  intros Huniq _ Hparse Hpage Hbound. eexists _, _. split.
  - apply (catalogAssets_page _ _ _ _ _ Hparse Hpage). lia.
  - rewrite (collect_size_unique package_name publicFields).
    + rewrite map_size_empty, length_take, length_drop. lia.
    + by apply NoDup_keys_window.
    + intros a _. apply lookup_empty.
Qed.

Lemma listing_page_size_witness :
  exists assets pages,
    sent (reply (serve (catalogAssetsHandler Sample.sqliteDoc (Some "1"))
                       [Sample.aurora] ∅).2)
      = [(200, BAssets assets pages)]
    /\ Z.of_nat (size assets) = 1.
Proof.
  destruct (listing_page_size Sample.sqliteDoc [Sample.aurora] ∅ (Some "1") 1)
    as (assets & pages & Hsent & Hsize).
  - apply NoDup_singleton.
  - intros row Hin. apply list_elem_of_singleton in Hin as ->. discriminate.
  - reflexivity.
  - lia.
  - lia.
  - exists assets, pages. split; [exact Hsent | exact Hsize].
Defined.

(** X26: the listing and the lookup agree: on a table without repeated
    names, whatever fields a page lists under a name are exactly the
    fields the single-package lookup of that name returns. *)
Theorem listing_agrees_with_lookup (parsedDoc : Config) (tbl : list Catalog)
    (dirs : gmap string (gmap string (list byte)))
    (query : option string) (page : Z)
    (assets : gmap string PublicFields) (pages : Z)
    (name : string) (fields : PublicFields) :
  uniqueNames tbl ->
  parseInt query = Some page ->
  1 <= page ->
  sent (reply (serve (catalogAssetsHandler parsedDoc query) tbl dirs).2)
    = [(200, BAssets assets pages)] ->
  assets !! name = Some fields ->
  sent (reply (serve (packageHandler name) tbl dirs).2) = [(200, BDetails fields)].
Proof.
  intros Huniq Hparse Hpage Hsent Hlook.
  apply (catalogAssets_listed _ _ _ _ _ _ _ Hparse Hpage) in Hsent as ->.
  apply collect_lookup_Some in Hlook as [(row & Hin & <- & <-) | Hempty];
    [|rewrite lookup_empty in Hempty; discriminate].
  apply window_elem_of in Hin as (i & _ & Hrow).
  rewrite packageHandler_run, find_by_name_unique; [reflexivity | exact Huniq |].
  apply list_elem_of_lookup. eauto.
Qed.

Lemma listing_agrees_with_lookup_witness :
  sent (reply (serve (packageHandler "pkg-1") [Sample.aurora] ∅).2)
  = [(200, BDetails (publicFields Sample.aurora))].
Proof.
  apply (listing_agrees_with_lookup Sample.sqliteDoc [Sample.aurora] ∅ (Some "1") 1
           {[ "pkg-1" := publicFields Sample.aurora ]} 1 "pkg-1").
  - apply NoDup_singleton.
  - reflexivity.
  - lia.
  - reflexivity.
  - reflexivity.
Defined.

(** ** More on the write endpoints *)

(** X8: [verifyReq] lets a request through exactly when the marketplace
    is enabled, the [psk] header is the configured secret and, for an
    upload, a non-empty [packagename] header and a file are present; and
    its status is 200 exactly when it reports no error. *)
Theorem verifyReq_passes_iff (parsedDoc : Config) (headers : Headers) (upload : bool)
    (data : option MultipartFile) :
  (verror (verifyReq parsedDoc headers upload data) = None
   <-> marketplace_enabled parsedDoc = true
       /\ psk headers = Some (marketplace_psk parsedDoc)
       /\ (upload = true ->
           (exists target, packagename headers = Some target /\ target <> "")
           /\ is_Some data))
  /\ (vstatus (verifyReq parsedDoc headers upload data) = 200
      <-> verror (verifyReq parsedDoc headers upload data) = None).
Proof.
  unfold verifyReq.
  destruct (marketplace_enabled parsedDoc); cbn [negb];
    [|split; split; [discriminate | intros (? & _); discriminate
                     | discriminate | discriminate]].
  destruct (bool_decide_reflect (psk headers = Some (marketplace_psk parsedDoc)))
    as [Hpsk | Hpsk]; cbn [negb];
    [|split; split; [discriminate | intros (_ & ? & _); done
                     | discriminate | discriminate]].
  destruct upload; cbn [andb].
  - destruct (packagename headers) as [target|]; cbn [truthyStr negb].
    + destruct (String.eqb_spec target "") as [-> | Hne]; cbn [negb].
      * split; split; try discriminate.
        intros (_ & _ & Hup). destruct (Hup eq_refl) as ((t & [= <-] & Ht) & _). done.
      * destruct (bool_decide_reflect (is_Some data)) as [Hdata | Hdata]; cbn [negb].
        -- split; split; try done. intros _. eauto 10.
        -- split; split; try discriminate.
           intros (_ & _ & Hup). destruct (Hup eq_refl) as (_ & Hd). done.
    + split; split; try discriminate.
      intros (_ & _ & Hup). destruct (Hup eq_refl) as ((t & Ht & _) & _). discriminate.
  - split; split; try done.
Qed.

Section UploadEffects.

Variable parsedDoc : Config.
Variable tbl : list Catalog.
Variable dirs : gmap string (gmap string (list byte)).

(** A rejected request of either write endpoint: one reply, nothing
    touched. *)
Lemma uploadAsset_rejected headers data message :
  verror (verifyReq parsedDoc headers true data) = Some message ->
  serve (uploadAssetHandler parsedDoc headers data) tbl dirs
  = (inr tt,
     {| table := tbl; assetDirs := dirs;
        reply := {| statusCode := vstatus (verifyReq parsedDoc headers true data);
                    sent := [(vstatus (verifyReq parsedDoc headers true data),
                              BStatus message)] |} |}).
Proof. intros Herr. unfold serve, uploadAssetHandler. rewrite Herr. reflexivity. Qed.

Lemma createPackage_rejected headers body message :
  verror (verifyReq parsedDoc headers false None) = Some message ->
  serve (createPackageHandler parsedDoc headers body) tbl dirs
  = (inr tt,
     {| table := tbl; assetDirs := dirs;
        reply := {| statusCode := vstatus (verifyReq parsedDoc headers false None);
                    sent := [(vstatus (verifyReq parsedDoc headers false None),
                              BStatus message)] |} |}).
Proof. intros Herr. unfold serve, createPackageHandler. rewrite Herr. reflexivity. Qed.

End UploadEffects.

(** X9: an upload with a multipart body and plain names never lets an
    exception escape, answers exactly once, leaves the table as it was,
    neither creates nor removes a directory, and leaves every directory
    other than the one named by the [packagename] header untouched,
    whether it is accepted or not. *)
Theorem uploadAsset_touches_only_target (parsedDoc : Config) (tbl : list Catalog)
    (dirs : gmap string (gmap string (list byte)))
    (headers : Headers) (data : option MultipartFile) :
  (forall target, packagename headers = Some target -> plainName target) ->
  (forall d, data = Some d -> plainName (filename d)) ->
  let result := serve (uploadAssetRoute parsedDoc headers (Multipart data)) tbl dirs in
  result.1 = inr tt
  /\ length (sent (reply result.2)) = 1%nat
  /\ table result.2 = tbl
  /\ dom (assetDirs result.2) = dom dirs
  /\ (forall other, packagename headers <> Some other ->
        assetDirs result.2 !! other = dirs !! other).
Proof.
  intros _ _. cbv zeta. rewrite uploadAssetRoute_multipart.
  destruct (verror (verifyReq parsedDoc headers true data)) as [message|] eqn:Hverify.
  - rewrite (uploadAsset_rejected _ _ _ _ _ _ Hverify). cbn. auto.
  - destruct (verifyReq_upload_passes _ _ _ Hverify)
      as (_ & _ & _ & (target & Htarget & _) & [d ->]).
    rewrite (uploadAsset_run _ _ _ _ target d Hverify Htarget).
    destruct (dirs !! target) as [files|] eqn:Hdir; cbn [fst snd table assetDirs reply].
    + split; [reflexivity|]. split; [by destruct (file d)|]. split; [reflexivity|]. split.
      * apply dom_insert_lookup_L. eauto.
      * intros other Hother. rewrite lookup_insert_ne; [reflexivity|]. congruence.
    + cbn. auto.
Qed.

Lemma uploadAsset_touches_only_target_witness :
  let result :=
    serve (uploadAssetRoute Sample.sqliteDoc (Sample.keyed (Some "pkg-1"))
             (Multipart (Some Sample.cover)))
          [Sample.aurora] {[ "pkg-1" := ∅; "pkg-2" := ∅ ]} in
  result.1 = inr tt
  /\ length (sent (reply result.2)) = 1%nat
  /\ assetDirs result.2 !! "pkg-2" = Some ∅.
Proof.
  destruct (uploadAsset_touches_only_target Sample.sqliteDoc [Sample.aurora]
              {[ "pkg-1" := ∅; "pkg-2" := ∅ ]} (Sample.keyed (Some "pkg-1"))
              (Some Sample.cover))
    as (Hok & Hone & _ & _ & Hother).
  - intros target [= Ht]. rewrite <- Ht.
    split; [reflexivity|]; split; [discriminate|]; split; [discriminate|];
      split; [discriminate | cbn; lia].
  - intros d [= Hd]. rewrite <- Hd.
    split; [reflexivity|]; split; [discriminate|]; split; [discriminate|];
      split; [discriminate | cbn; lia].
  - split; [exact Hok|]. split; [exact Hone|].
    rewrite (Hother "pkg-2") by discriminate. reflexivity.
Defined.

(** X10: uploads overwrite: after two accepted uploads of the same plain
    file name into the same existing directory of a plain package name,
    the file holds the bytes of the second, and every other file of the
    directory is as it was before the first. *)
Theorem uploadAsset_last_write_wins (parsedDoc : Config) (tbl : list Catalog)
    (dirs : gmap string (gmap string (list byte)))
    (headers1 headers2 : Headers) (target : string) (d1 d2 : MultipartFile)
    (files : gmap string (list byte)) (bytes1 bytes2 : list byte) :
  verror (verifyReq parsedDoc headers1 true (Some d1)) = None ->
  verror (verifyReq parsedDoc headers2 true (Some d2)) = None ->
  packagename headers1 = Some target ->
  packagename headers2 = Some target ->
  plainName target ->
  plainName (filename d1) ->
  filename d2 = filename d1 ->
  file d1 = Complete bytes1 ->
  file d2 = Complete bytes2 ->
  dirs !! target = Some files ->
  let first :=
    serve (uploadAssetRoute parsedDoc headers1 (Multipart (Some d1))) tbl dirs in
  let second :=
    serve (uploadAssetRoute parsedDoc headers2 (Multipart (Some d2)))
          (table first.2) (assetDirs first.2) in
  sent (reply second.2) = [(200, BStatus "File uploaded successfully!")]
  /\ exists files',
       assetDirs second.2 !! target = Some files'
       /\ files' !! filename d1 = Some bytes2
       /\ forall other, other <> filename d1 -> files' !! other = files !! other.
Proof.
  intros Hv1 Hv2 Ht1 Ht2 _ _ Hname Hf1 Hf2 Hdir. cbv zeta.
  rewrite !uploadAssetRoute_multipart.
  rewrite (uploadAsset_run _ _ _ _ target d1 Hv1 Ht1), Hdir. cbn [snd table assetDirs].
  rewrite (uploadAsset_run _ _ _ _ target d2 Hv2 Ht2), lookup_insert_eq.
  cbn [snd reply assetDirs]. rewrite Hf1, Hf2, Hname. cbn [delivered sent].
  split; [reflexivity|]. eexists. split; [apply lookup_insert_eq|]. split.
  - apply lookup_insert_eq.
  - intros other Hother. by rewrite !lookup_insert_ne.
Qed.

Lemma uploadAsset_last_write_wins_witness :
  let upload bytes :=
    uploadAssetRoute Sample.sqliteDoc (Sample.keyed (Some "pkg-1"))
      (Multipart (Some {| filename := "cover.png"; file := Complete bytes |})) in
  let first := serve (upload [x01]) [Sample.aurora] {[ "pkg-1" := ∅ ]} in
  let second := serve (upload [x02; x03]) (table first.2) (assetDirs first.2) in
  exists files',
    assetDirs second.2 !! "pkg-1" = Some files'
    /\ files' !! "cover.png" = Some [x02; x03].
Proof.
  destruct (uploadAsset_last_write_wins Sample.sqliteDoc [Sample.aurora] {[ "pkg-1" := ∅ ]}
              (Sample.keyed (Some "pkg-1")) (Sample.keyed (Some "pkg-1")) "pkg-1"
              {| filename := "cover.png"; file := Complete [x01] |}
              {| filename := "cover.png"; file := Complete [x02; x03] |}
              ∅ [x01] [x02; x03])
    as (_ & files' & Hdir & Hfile & _); try reflexivity.
  - split; [reflexivity|]; split; [discriminate|]; split; [discriminate|];
      split; [discriminate | cbn; lia].
  - split; [reflexivity|]; split; [discriminate|]; split; [discriminate|];
      split; [discriminate | cbn; lia].
  - exists files'. split; [exact Hdir | exact Hfile].
Defined.

(** ** Invariants of the table and the directories *)

Local Ltac plain_name :=
  split; [reflexivity|]; split; [discriminate|]; split; [discriminate|];
  split; [discriminate | cbn; lia].

Lemma session_is_plain : Forall plainRequest Sample.session.
Proof.
  unfold Sample.session.
  apply Forall_cons; split; [cbn; plain_name|].
  apply Forall_cons; split.
  { split; [intros target [= Ht] | intros d [= Hd]].
    - rewrite <- Ht. plain_name.
    - rewrite <- Hd. cbn. plain_name. }
  apply Forall_cons; split.
  { split; [intros target [= Ht] | intros d Hd].
    - rewrite <- Ht. plain_name.
    - discriminate Hd. }
  apply Forall_cons; split; [exact I|].
  apply Forall_cons; split; [cbn; plain_name|].
  apply Forall_cons; split; [cbn; plain_name|].
  constructor.
Defined.

(** What one request can do to the table and to the set of directories:
    nothing, or add one row of a new name together with its directory. *)
Lemma route_effect (parsedDoc : Config) (request : Request) (tbl : list Catalog)
    (dirs : gmap string (gmap string (list byte))) :
  let st := (serve (route parsedDoc request) tbl dirs).2 in
  (table st = tbl /\ dom (assetDirs st) = dom dirs)
  \/ (exists row,
        table st = (tbl ++ [row])%list
        /\ (forall r, r ∈ tbl -> package_name r <> package_name row)
        /\ dom (assetDirs st) = {[ package_name row ]} ∪ dom dirs).
Proof.
  cbv zeta.
  destruct request as [page | package | headers [|data] | headers body]; cbn [route].
  - left. rewrite catalogAssets_run. cbv zeta. cbn. auto.
  - left. rewrite packageHandler_run. cbn. auto.
  - left. rewrite uploadAssetRoute_not_multipart. cbn. auto.
  - left. rewrite uploadAssetRoute_multipart.
    destruct (verror (verifyReq parsedDoc headers true data)) as [message|] eqn:Hverify.
    + rewrite (uploadAsset_rejected _ _ _ _ _ _ Hverify). cbn. auto.
    + destruct (verifyReq_upload_passes _ _ _ Hverify)
        as (_ & _ & _ & (target & Htarget & _) & [d ->]).
      rewrite (uploadAsset_run _ _ _ _ target d Hverify Htarget).
      destruct (dirs !! target) as [files|] eqn:Hdir; cbn [snd table assetDirs].
      * split; [reflexivity|]. apply dom_insert_lookup_L. eauto.
      * auto.
  - destruct (verror (verifyReq parsedDoc headers false None)) as [message|] eqn:Hverify.
    + left. rewrite (createPackage_rejected _ _ _ _ _ _ Hverify). cbn. auto.
    + rewrite (createPackage_run _ _ _ _ _ Hverify).
      destruct (existsb _ tbl) eqn:Hex; [left; cbn; auto|].
      right. exists (catalogOfBody body).
      pose proof (proj1 (existsb_by_name_false tbl (b_uuid body)) Hex) as Hfresh.
      destruct (dirs !! b_uuid body) as [files|] eqn:Hdir; cbn [snd table assetDirs].
      * split; [reflexivity|]. split; [exact Hfresh|].
        apply elem_of_dom_2 in Hdir. cbn [catalogOfBody package_name].
        symmetry. apply subseteq_union_1_L, singleton_subseteq_l, Hdir.
      * split; [reflexivity|]. split; [exact Hfresh|]. apply dom_insert_L.
Qed.


Lemma route_keeps_rowsHaveDirs (parsedDoc : Config) (request : Request)
    (tbl : list Catalog) (dirs : gmap string (gmap string (list byte))) :
  rowsHaveDirs tbl dirs ->
  rowsHaveDirs (table (serve (route parsedDoc request) tbl dirs).2)
               (assetDirs (serve (route parsedDoc request) tbl dirs).2).
Proof.
  intros Hinv r.
  destruct (route_effect parsedDoc request tbl dirs)
    as [(-> & Hdom) | (row & -> & _ & Hdom)];
    intros Hin; apply elem_of_dom; rewrite Hdom.
  - apply elem_of_dom. by apply Hinv.
  - apply elem_of_app in Hin as [Hin | Hin].
    + apply elem_of_union_r, elem_of_dom. by apply Hinv.
    + apply list_elem_of_singleton in Hin as ->. apply elem_of_union_l. set_solver.
Qed.

Lemma route_keeps_dirsHaveRows (parsedDoc : Config) (request : Request)
    (tbl : list Catalog) (dirs : gmap string (gmap string (list byte))) :
  dirsHaveRows tbl dirs ->
  dirsHaveRows (table (serve (route parsedDoc request) tbl dirs).2)
               (assetDirs (serve (route parsedDoc request) tbl dirs).2).
Proof.
  intros Hinv name Hdir. apply elem_of_dom in Hdir.
  destruct (route_effect parsedDoc request tbl dirs)
    as [(-> & Hdom) | (row & -> & _ & Hdom)]; rewrite Hdom in Hdir.
  - apply Hinv. by apply elem_of_dom.
  - apply elem_of_union in Hdir as [Hnew | Hold].
    + exists row. split; [apply elem_of_app; right; by apply list_elem_of_singleton|].
      set_solver.
    + destruct (Hinv name) as (r & Hr & Hname); [by apply elem_of_dom|].
      exists r. split; [apply elem_of_app; by left | exact Hname].
Qed.

(** A property of the table and the directories that every single
    request keeps is kept by any sequence of requests. *)
Lemma serveAll_keeps (parsedDoc : Config)
    (P : list Catalog -> gmap string (gmap string (list byte)) -> Prop) :
  (forall request tbl dirs,
     P tbl dirs ->
     P (table (serve (route parsedDoc request) tbl dirs).2)
       (assetDirs (serve (route parsedDoc request) tbl dirs).2)) ->
  forall requests tbl dirs,
    P tbl dirs ->
    P (serveAll parsedDoc requests tbl dirs).2.1 (serveAll parsedDoc requests tbl dirs).2.2.
Proof.
  intros Hstep requests. induction requests as [|request requests IH]; intros tbl dirs HP.
  - exact HP.
  - cbn [serveAll snd]. apply IH, Hstep, HP.
Qed.


(** X12: no sequence of requests with plain names leaves a row without
    its directory: if every row has an asset directory, so it is after
    such requests, served one after the other. *)
Theorem rows_keep_their_directories (parsedDoc : Config) (requests : list Request)
    (tbl : list Catalog) (dirs : gmap string (gmap string (list byte))) :
  Forall plainRequest requests ->
  rowsHaveDirs tbl dirs ->
  rowsHaveDirs (serveAll parsedDoc requests tbl dirs).2.1
               (serveAll parsedDoc requests tbl dirs).2.2.
Proof.
  intros _.
  apply (serveAll_keeps parsedDoc rowsHaveDirs).
  intros request tbl' dirs'. apply route_keeps_rowsHaveDirs.
Qed.

(** X13: no sequence of requests with plain names makes a directory
    without a row: if every asset directory belongs to a row, so it is
    after such requests, served one after the other. *)
Theorem directories_keep_their_rows (parsedDoc : Config) (requests : list Request)
    (tbl : list Catalog) (dirs : gmap string (gmap string (list byte))) :
  Forall plainRequest requests ->
  dirsHaveRows tbl dirs ->
  dirsHaveRows (serveAll parsedDoc requests tbl dirs).2.1
               (serveAll parsedDoc requests tbl dirs).2.2.
Proof.
  intros _.
  apply (serveAll_keeps parsedDoc dirsHaveRows).
  intros request tbl' dirs'. apply route_keeps_dirsHaveRows.
Qed.


Lemma rows_keep_their_directories_witness :
  rowsHaveDirs (serveAll Sample.sqliteDoc Sample.session [] ∅).2.1
               (serveAll Sample.sqliteDoc Sample.session [] ∅).2.2.
Proof.
  apply (rows_keep_their_directories Sample.sqliteDoc Sample.session [] ∅).
  - exact session_is_plain.
  - intros row Hin. by apply elem_of_nil in Hin.
Defined.

Lemma directories_keep_their_rows_witness :
  dirsHaveRows (serveAll Sample.sqliteDoc Sample.session [] ∅).2.1
               (serveAll Sample.sqliteDoc Sample.session [] ∅).2.2.
Proof.
  apply (directories_keep_their_rows Sample.sqliteDoc Sample.session [] ∅).
  - exact session_is_plain.
  - intros name Hdir. rewrite lookup_empty in Hdir. by destruct Hdir.
Defined.

(** The messages [verifyReq] can report. *)
Lemma verifyReq_messages (parsedDoc : Config) (headers : Headers) (upload : bool)
    (data : option MultipartFile) (message : string) :
  verror (verifyReq parsedDoc headers upload data) = Some message ->
  message = "Marketplace Is disabled!" \/ message = "PSK isn't correct!"
  \/ message = "No packagename defined!" \/ message = "No file uploaded!".
Proof.
  unfold verifyReq.
  repeat (match goal with |- context [if ?b then _ else _] => destruct b end;
          cbn [verror]); intros [= <-]; auto.
Qed.

Lemma route_no_already_exists (parsedDoc : Config) (request : Request)
    (tbl : list Catalog) (dirs : gmap string (gmap string (list byte))) (code : Z) :
  dirsHaveRows tbl dirs ->
  (code, BStatus "Package already exists!")
    ∉ sent (reply (serve (route parsedDoc request) tbl dirs).2).
Proof.
  intros Hinv Hin.
  destruct request as [page | package | headers [|data] | headers body];
    cbn [route] in Hin.
  - rewrite catalogAssets_run in Hin. cbv zeta in Hin. cbn [snd reply] in Hin.
    destruct (_ <? 1); [|destruct (2 ^ 63 <=? _)]; cbn [sent] in Hin;
      apply list_elem_of_singleton in Hin; discriminate.
  - rewrite packageHandler_run in Hin. cbn [snd reply] in Hin.
    destruct (List.find _ tbl); cbn [sent] in Hin;
      apply list_elem_of_singleton in Hin; discriminate.
  - rewrite uploadAssetRoute_not_multipart in Hin. by apply elem_of_nil in Hin.
  - rewrite uploadAssetRoute_multipart in Hin.
    destruct (verror (verifyReq parsedDoc headers true data)) as [message|] eqn:Hverify.
    + rewrite (uploadAsset_rejected _ _ _ _ _ _ Hverify) in Hin. cbn [snd reply sent] in Hin.
      apply list_elem_of_singleton in Hin. injection Hin as _ Hmessage.
      apply verifyReq_messages in Hverify. rewrite <- Hmessage in Hverify.
      destruct Hverify as [H | [H | [H | H]]]; discriminate.
    + destruct (verifyReq_upload_passes _ _ _ Hverify)
        as (_ & _ & _ & (target & Htarget & _) & [d ->]).
      rewrite (uploadAsset_run _ _ _ _ target d Hverify Htarget) in Hin.
      destruct (dirs !! target); [destruct (file d)|]; cbn [snd reply sent] in Hin;
        apply list_elem_of_singleton in Hin; discriminate.
  - destruct (verror (verifyReq parsedDoc headers false None)) as [message|] eqn:Hverify.
    + rewrite (createPackage_rejected _ _ _ _ _ _ Hverify) in Hin. cbn [snd reply sent] in Hin.
      apply list_elem_of_singleton in Hin. injection Hin as _ Hmessage.
      apply verifyReq_messages in Hverify. rewrite <- Hmessage in Hverify.
      destruct Hverify as [H | [H | [H | H]]]; discriminate.
    + rewrite (createPackage_run _ _ _ _ _ Hverify) in Hin.
      destruct (existsb _ tbl) eqn:Hex.
      * cbn [snd reply sent freshReply] in Hin. by apply elem_of_nil in Hin.
      * pose proof (proj1 (existsb_by_name_false tbl (b_uuid body)) Hex) as Hfresh.
        destruct (dirs !! b_uuid body) as [files|] eqn:Hdir.
        -- destruct (Hinv (b_uuid body)) as (r & Hr & Hname); [eauto|].
           by apply (Hfresh r).
        -- cbn [snd reply sent] in Hin. apply list_elem_of_singleton in Hin. discriminate.
Qed.

(** X14: the reply "Package already exists!" needs a directory that has
    no row.  Starting from a state where every asset directory belongs to
    a row (the empty server, say), no request of a sequence with plain
    names is ever answered with it, under any status: a repeated create
    fails on the uniqueness of the name before the directory is looked
    at. *)
Theorem already_exists_needs_orphan_directory (parsedDoc : Config)
    (requests : list Request) (tbl : list Catalog)
    (dirs : gmap string (gmap string (list byte)))
    (replies : list (Z * Body)) (code : Z) :
  Forall plainRequest requests ->
  dirsHaveRows tbl dirs ->
  replies ∈ (serveAll parsedDoc requests tbl dirs).1 ->
  (code, BStatus "Package already exists!") ∉ replies.
Proof.
  intros _.
  revert tbl dirs. induction requests as [|request requests IH]; intros tbl dirs Hinv Hin.
  - by apply elem_of_nil in Hin.
  - cbn [serveAll fst] in Hin. apply elem_of_cons in Hin as [-> | Hin].
    + by apply route_no_already_exists.
    + eapply IH; [|exact Hin]. by apply route_keeps_dirsHaveRows.
Qed.

Lemma already_exists_needs_orphan_directory_witness :
  (serveAll Sample.sqliteDoc Sample.session [] ∅).1 !! 5%nat = Some []
  /\ (500, BStatus "Package already exists!") ∉ ([] : list (Z * Body)).
Proof.
  split; [reflexivity|].
  apply (already_exists_needs_orphan_directory Sample.sqliteDoc Sample.session [] ∅).
  - exact session_is_plain.
  - intros name Hdir. rewrite lookup_empty in Hdir. by destruct Hdir.
  - apply list_elem_of_lookup. exists 5%nat. reflexivity.
Defined.

(** ** Create, then read or upload *)

(** X15: for a plain identifier, create-package answers "Package
    created successfully!" exactly when the request passes verification,
    no row carries the identifier and no directory of that name exists;
    it then has appended the row and made an empty directory, and nothing
    else. *)
Theorem createPackage_success_iff (parsedDoc : Config) (tbl : list Catalog)
    (dirs : gmap string (gmap string (list byte)))
    (headers : Headers) (body : CreateBody) :
  plainName (b_uuid body) ->
  let result := serve (createPackageHandler parsedDoc headers body) tbl dirs in
  (sent (reply result.2) = [(200, BStatus "Package created successfully!")]
   <-> verror (verifyReq parsedDoc headers false None) = None
       /\ (forall row, row ∈ tbl -> package_name row <> b_uuid body)
       /\ dirs !! b_uuid body = None)
  /\ (sent (reply result.2) = [(200, BStatus "Package created successfully!")] ->
      result.1 = inr tt
      /\ table result.2 = (tbl ++ [catalogOfBody body])%list
      /\ assetDirs result.2 = <[b_uuid body := ∅]> dirs).
Proof.
  intros _. cbv zeta.
  destruct (verror (verifyReq parsedDoc headers false None)) as [message|] eqn:Hverify.
  - rewrite (createPackage_rejected _ _ _ _ _ _ Hverify). cbn [fst snd reply sent table assetDirs].
    pose proof (verifyReq_messages _ _ _ _ _ Hverify) as Hmsg.
    assert (Hne : [(vstatus (verifyReq parsedDoc headers false None), BStatus message)]
                  <> [(200, BStatus "Package created successfully!")]).
    { intros [= _ ->]. destruct Hmsg as [H | [H | [H | H]]]; discriminate. }
    split; [split|]; [done | intros (? & _); discriminate | done].
  - rewrite (createPackage_run _ _ _ _ _ Hverify).
    rewrite <- existsb_by_name_false.
    destruct (existsb _ tbl).
    + cbn [fst snd reply sent freshReply].
      split; [split|]; [discriminate | intros (_ & ? & _); discriminate | discriminate].
    + destruct (dirs !! b_uuid body) as [files|];
        cbn [fst snd reply sent table assetDirs].
      * split; [split|]; [discriminate | intros (_ & _ & ?); discriminate | discriminate].
      * split; [split|]; auto.
Qed.

Lemma createPackage_success_iff_witness :
  let result :=
    serve (createPackageHandler Sample.sqliteDoc (Sample.keyed None) Sample.auroraBody)
          [] ∅ in
  sent (reply result.2) = [(200, BStatus "Package created successfully!")]
  /\ table result.2 = [Sample.aurora]
  /\ assetDirs result.2 = {[ "pkg-1" := ∅ ]}.
Proof.
  destruct (createPackage_success_iff Sample.sqliteDoc [] ∅ (Sample.keyed None)
              Sample.auroraBody) as (Hiff & Heffect).
  - split; [reflexivity|]; split; [discriminate|]; split; [discriminate|];
      split; [discriminate | cbn; lia].
  - assert (Hsent : sent (reply (serve (createPackageHandler Sample.sqliteDoc
                       (Sample.keyed None) Sample.auroraBody) [] ∅).2)
                    = [(200, BStatus "Package created successfully!")]).
    { apply Hiff. split; [reflexivity|]. split; [|reflexivity].
      intros row Hin. by apply elem_of_nil in Hin. }
    destruct (Heffect Hsent) as (_ & Htable & Hdirs).
    split; [exact Hsent|]. split; [exact Htable | exact Hdirs].
Defined.

(** X16: what create-package stores is what the lookup returns: after a
    verified create of an identifier no row carries, GET
    /api/packages/<identifier> answers 200 with exactly the fields of the
    request body, whether or not the create found the directory already
    there. *)
Theorem create_then_get (parsedDoc : Config) (tbl : list Catalog)
    (dirs : gmap string (gmap string (list byte)))
    (headers : Headers) (body : CreateBody) :
  verror (verifyReq parsedDoc headers false None) = None ->
  (forall row, row ∈ tbl -> package_name row <> b_uuid body) ->
  let created := (serve (createPackageHandler parsedDoc headers body) tbl dirs).2 in
  sent (reply (serve (packageHandler (b_uuid body))
                     (table created) (assetDirs created)).2)
  = [(200,
      BDetails {| pf_title := b_title body;
                  pf_description := b_description body;
                  pf_author := b_author body;
                  pf_image := b_image body;
                  pf_tags := b_tags body;
                  pf_version := b_version body;
                  pf_background_image := b_background_image body;
                  pf_background_video := b_background_video body;
                  pf_payload := b_payload body;
                  pf_type := b_type body |})].
Proof.
  intros Hverify Hfresh. cbv zeta.
  rewrite (createPackage_run _ _ _ _ _ Hverify).
  rewrite (proj2 (existsb_by_name_false tbl (b_uuid body)) Hfresh).
  assert (Hfind : List.find (fun r => String.eqb (package_name r) (b_uuid body))
                            (tbl ++ [catalogOfBody body]) = Some (catalogOfBody body))
    by (apply (find_by_name_snoc tbl (catalogOfBody body)); exact Hfresh).
  destruct (dirs !! b_uuid body); cbn [snd table assetDirs];
    rewrite packageHandler_run, Hfind; reflexivity.
Qed.

Lemma create_then_get_witness :
  let created :=
    (serve (createPackageHandler Sample.sqliteDoc (Sample.keyed None) Sample.auroraBody)
           [] ∅).2 in
  sent (reply (serve (packageHandler "pkg-1") (table created) (assetDirs created)).2)
  = [(200, BDetails (publicFields Sample.aurora))].
Proof.
  apply (create_then_get Sample.sqliteDoc [] ∅ (Sample.keyed None) Sample.auroraBody).
  - reflexivity.
  - intros row Hin. by apply elem_of_nil in Hin.
Defined.

(** X17: a created package accepts uploads: after a successful create of
    a new plain identifier, a verified multipart upload that names it,
    has a plain file name and whose stream ends normally answers 200, and
    the new directory then holds that one file with the uploaded bytes. *)
Theorem create_then_upload (parsedDoc : Config) (tbl : list Catalog)
    (dirs : gmap string (gmap string (list byte)))
    (headers1 headers2 : Headers) (body : CreateBody) (d : MultipartFile)
    (bytes : list byte) :
  verror (verifyReq parsedDoc headers1 false None) = None ->
  (forall row, row ∈ tbl -> package_name row <> b_uuid body) ->
  dirs !! b_uuid body = None ->
  verror (verifyReq parsedDoc headers2 true (Some d)) = None ->
  packagename headers2 = Some (b_uuid body) ->
  plainName (b_uuid body) ->
  plainName (filename d) ->
  file d = Complete bytes ->
  let created := (serve (createPackageHandler parsedDoc headers1 body) tbl dirs).2 in
  let uploaded :=
    (serve (uploadAssetRoute parsedDoc headers2 (Multipart (Some d)))
           (table created) (assetDirs created)).2 in
  sent (reply uploaded) = [(200, BStatus "File uploaded successfully!")]
  /\ assetDirs uploaded !! b_uuid body = Some {[ filename d := bytes ]}
  /\ table uploaded = (tbl ++ [catalogOfBody body])%list.
Proof.
  intros Hv1 Hfresh Hdir Hv2 Htarget _ _ Hfile. cbv zeta.
  rewrite uploadAssetRoute_multipart.
  rewrite (createPackage_run _ _ _ _ _ Hv1).
  rewrite (proj2 (existsb_by_name_false tbl (b_uuid body)) Hfresh), Hdir.
  cbn [snd table assetDirs].
  rewrite (uploadAsset_run _ _ _ _ (b_uuid body) d Hv2 Htarget), lookup_insert_eq, Hfile.
  cbn [snd reply sent table assetDirs delivered].
  split; [reflexivity|]. split; [|reflexivity].
  rewrite lookup_insert_eq. reflexivity.
Qed.

Lemma create_then_upload_witness :
  let created :=
    (serve (createPackageHandler Sample.sqliteDoc (Sample.keyed None) Sample.auroraBody)
           [] ∅).2 in
  let uploaded :=
    (serve (uploadAssetRoute Sample.sqliteDoc (Sample.keyed (Some "pkg-1"))
              (Multipart (Some Sample.cover)))
           (table created) (assetDirs created)).2 in
  sent (reply uploaded) = [(200, BStatus "File uploaded successfully!")]
  /\ assetDirs uploaded !! "pkg-1" = Some {[ "cover.png" := [x89; x50; x4e; x47] ]}.
Proof.
  destruct (create_then_upload Sample.sqliteDoc [] ∅ (Sample.keyed None)
              (Sample.keyed (Some "pkg-1")) Sample.auroraBody Sample.cover
              [x89; x50; x4e; x47]) as (Hsent & Hdir & _); try reflexivity.
  - intros row Hin. by apply elem_of_nil in Hin.
  - split; [reflexivity|]; split; [discriminate|]; split; [discriminate|];
      split; [discriminate | cbn; lia].
  - split; [reflexivity|]; split; [discriminate|]; split; [discriminate|];
      split; [discriminate | cbn; lia].
  - split; [exact Hsent | exact Hdir].
Defined.

(** * Further properties of the package page *)

Set Warnings "-clear-no-such-hyp".

Lemma fetchAssetsJson_missing
    (tbl : list Catalog) (dirs : gmap string (gmap string (list byte)))
    (packageName : string) :
  List.find (fun r => String.eqb (package_name r) packageName) tbl = None ->
  fetchAssetsJson tbl dirs packageName = {[ "error" := JStr "Package not found!" ]}.
Proof.
  intros Hfind. unfold fetchAssetsJson. rewrite packageHandler_run, Hfind. reflexivity.
Qed.

(** X18: for a plain package name (one that the fetch URL carries to
    the [:package] route as it stands), the page shows the error heading,
    and no card, exactly when the table has no row of that name. *)
Theorem page_shows_error_iff_unknown
    (tbl : list Catalog) (dirs : gmap string (gmap string (list byte)))
    (packageName : string) :
  plainName packageName ->
  (render packageName (fetchAssetsJson tbl dirs packageName) = ErrorView
   <-> forall row, row ∈ tbl -> package_name row <> packageName).
Proof.
  intros _. rewrite <- find_by_name_None.
  destruct (List.find _ tbl) as [row|] eqn:Hfind.
  - rewrite (fetchAssetsJson_found _ _ _ _ Hfind). unfold render, truthyProp.
    rewrite details_error. split; discriminate.
  - rewrite (fetchAssetsJson_missing _ _ _ Hfind). split; reflexivity.
Qed.

Lemma page_shows_error_iff_unknown_witness :
  render "pkg-9" (fetchAssetsJson [Sample.aurora] ∅ "pkg-9") = ErrorView.
Proof.
  apply (page_shows_error_iff_unknown [Sample.aurora] ∅ "pkg-9").
  - split; [reflexivity|]; split; [discriminate|]; split; [discriminate|];
      split; [discriminate | cbn; lia].
  - intros row Hin. apply list_elem_of_singleton in Hin as ->. discriminate.
Defined.

(** X19: for a package of plain name stored in a table without repeated names the page
    renders the card with exactly one media element: the video of
    [background_video] when that is a non-empty string, otherwise the
    plain image of [image] with the title as alternative text; and both
    buttons as in the template, install visible and uninstall hidden. *)
Theorem page_of_stored_package
    (tbl : list Catalog) (dirs : gmap string (gmap string (list byte)))
    (row : Catalog) :
  uniqueNames tbl ->
  row ∈ tbl ->
  plainName (package_name row) ->
  render (package_name row) (fetchAssetsJson tbl dirs (package_name row))
  = PackageView
      [ if truthyStr (background_video row)
        then Video ("/packages/" +:+ package_name row +:+ "/"
                     +:+ default "" (background_video row))
        else Image ("/packages/" +:+ package_name row +:+ "/" +:+ image row)
                   (title row) ]
      renderedButtons
  /\ displayedState renderedButtons = Some NotInstalled.
Proof.
  intros Huniq Hin _. split; [|reflexivity].
  rewrite (fetchAssetsJson_found _ _ _ row) by (by apply find_by_name_unique).
  unfold render, truthyProp. rewrite details_error, renderMedia_details.
  cbn [publicFields pf_background_video pf_image pf_title].
  by destruct (truthyStr (background_video row)).
Qed.

Lemma page_of_stored_package_witness :
  render "pkg-1" (fetchAssetsJson [Sample.aurora] ∅ "pkg-1")
  = PackageView [Image "/packages/pkg-1/cover.png" "Aurora"] renderedButtons.
Proof.
  destruct (page_of_stored_package [Sample.aurora] ∅ Sample.aurora) as (Hrender & _).
  - apply NoDup_singleton.
  - apply list_elem_of_singleton. reflexivity.
  - split; [reflexivity|]; split; [discriminate|]; split; [discriminate|];
      split; [discriminate | cbn; lia].
  - exact Hrender.
Defined.

(** X20: on any object the card has at least one media element and at
    most two.  The plain image is rendered exactly when neither
    [background_video] nor [backgroundImage] is truthy; the video block
    and the background-image block do not exclude each other: an object
    with both keys truthy gets both. *)
Theorem media_blocks (packageName : string) (assetsJson : gmap string Json) :
  let media := renderMedia packageName assetsJson in
  let video := truthyProp assetsJson "background_video" in
  let background := truthyProp assetsJson "backgroundImage" in
  (1 <= length media <= 2)%nat
  /\ (length media = 2%nat <-> video = true /\ background = true)
  /\ ((exists src alt, Image src alt ∈ media) <-> video = false /\ background = false)
  /\ ((exists src, Video src ∈ media) <-> video = true)
  /\ ((exists url, BackgroundImage url ∈ media) <-> background = true).
Proof.
  cbv zeta. unfold renderMedia.
  destruct (truthyProp assetsJson "background_video");
    destruct (truthyProp assetsJson "backgroundImage"); cbn [negb andb app length];
    (split; [lia|]); (split; [split; [try done; lia | intros (? & ?); done]|]);
    setoid_rewrite list_elem_of_In; cbn [In]; naive_solver.
Qed.

(** ** The buttons *)

Lemma classList_add_elem (c x : string) (l : list string) :
  x ∈ classList_add c l <-> x = c \/ x ∈ l.
Proof.
  unfold classList_add. destruct (bool_decide_reflect (c ∈ l)) as [Hin | Hnotin].
  - split; [auto | intros [-> | H]; auto].
  - rewrite elem_of_app, list_elem_of_singleton. tauto.
Qed.

Lemma classList_remove_elem (c x : string) (l : list string) :
  x ∈ classList_remove c l <-> x <> c /\ x ∈ l.
Proof. unfold classList_remove. by rewrite list_elem_of_filter. Qed.

Lemma classList_add_idem (c : string) (l : list string) :
  classList_add c (classList_add c l) = classList_add c l.
Proof.
  unfold classList_add at 1. rewrite bool_decide_eq_true_2; [reflexivity|].
  apply classList_add_elem. by left.
Qed.

Lemma classList_remove_idem (c : string) (l : list string) :
  classList_remove c (classList_remove c l) = classList_remove c l.
Proof.
  unfold classList_remove. induction l as [|x l IH]; [reflexivity|].
  rewrite filter_cons. destruct (decide (x <> c)) as [Hx | Hx].
  - rewrite filter_cons. rewrite decide_True by done. by rewrite IH.
  - exact IH.
Qed.

Lemma shown_add_hidden (l : list string) : shown (classList_add "hidden" l) = false.
Proof.
  unfold shown. rewrite bool_decide_eq_true_2; [reflexivity|].
  apply classList_add_elem. by left.
Qed.

Lemma shown_remove_hidden (l : list string) : shown (classList_remove "hidden" l) = true.
Proof.
  unfold shown. rewrite bool_decide_eq_false_2; [reflexivity|].
  rewrite classList_remove_elem. intros (Hne & _). done.
Qed.

(** The test of [fn] holds exactly for a package persisted as installed. *)
Lemma fn_test_iff (packageName : string) (localStorage : LocalStorage) :
  (negb (indexOf packageName (default [] (themes localStorage)) =? -1)
   || bool_decide (is_Some (List.find
        (fun p => String.eqb (name p) packageName
                  && negb (bool_decide (remove p = Some true)))
        (default [] (plugins localStorage))))) = true
  <-> persistedAsInstalled packageName localStorage.
Proof.
  unfold persistedAsInstalled.
  by rewrite orb_true_iff, indexOf_found, bool_decide_eq_true, find_plugin_is_Some.
Qed.

(** X21: whatever classes the buttons carry, once an install has
    resolved the page displays [Installed], and once an uninstall has
    resolved it displays [NotInstalled]; either way every class other than
    [hidden] stays on the button it was on. *)
Theorem listeners_toggle_display (dom : Buttons) :
  displayedState (installResolved dom) = Some Installed
  /\ displayedState (uninstallResolved dom) = Some NotInstalled
  /\ (forall c, c <> "hidden" ->
        (c ∈ installButton (installResolved dom) <-> c ∈ installButton dom)
        /\ (c ∈ uninstallButton (installResolved dom) <-> c ∈ uninstallButton dom)
        /\ (c ∈ installButton (uninstallResolved dom) <-> c ∈ installButton dom)
        /\ (c ∈ uninstallButton (uninstallResolved dom) <-> c ∈ uninstallButton dom)).
Proof.
  split; [|split].
  - unfold displayedState, installResolved. cbn [installButton uninstallButton].
    by rewrite shown_add_hidden, shown_remove_hidden.
  - unfold displayedState, uninstallResolved. cbn [installButton uninstallButton].
    by rewrite shown_add_hidden, shown_remove_hidden.
  - intros c Hc. unfold installResolved, uninstallResolved.
    cbn [installButton uninstallButton].
    rewrite !classList_add_elem, !classList_remove_elem. tauto.
Qed.

(** X22: on buttons in any state, [fn] displays [Installed] when the
    package is persisted as installed and changes nothing when it is not
    (it never hides the uninstall button or shows the install button);
    running it twice is the same as running it once. *)
Theorem fn_on_any_buttons (packageName : string) (localStorage : LocalStorage)
    (dom : Buttons) :
  (persistedAsInstalled packageName localStorage ->
     displayedState (fn packageName localStorage dom) = Some Installed)
  /\ (~ persistedAsInstalled packageName localStorage ->
      fn packageName localStorage dom = dom)
  /\ fn packageName localStorage (fn packageName localStorage dom)
     = fn packageName localStorage dom.
Proof.
  pose proof (fn_test_iff packageName localStorage) as Htest.
  unfold fn.
  destruct (negb (indexOf packageName (default [] (themes localStorage)) =? -1)
            || bool_decide (is_Some (List.find _ (default [] (plugins localStorage))))).
  - split; [|split].
    + intros _. unfold displayedState. cbn [installButton uninstallButton].
      by rewrite shown_add_hidden, shown_remove_hidden.
    + intros Hno. destruct Hno. by apply Htest.
    + cbn [installButton uninstallButton].
      by rewrite classList_add_idem, classList_remove_idem.
  - split; [|split].
    + intros Hyes. apply Htest in Hyes. discriminate.
    + reflexivity.
    + reflexivity.
Qed.

Lemma fn_on_any_buttons_witness :
  displayedState
    (fn "pkg-1" {| themes := Some ["pkg-1"]; plugins := None |}
        {| installButton := ["mt-9"]; uninstallButton := ["hidden"; "hidden"] |})
  = Some Installed
  /\ fn "pkg-1" {| themes := None; plugins := None |}
        {| installButton := ["hidden"]; uninstallButton := [] |}
     = {| installButton := ["hidden"]; uninstallButton := [] |}.
Proof.
  split.
  - destruct (fn_on_any_buttons "pkg-1" {| themes := Some ["pkg-1"]; plugins := None |}
                {| installButton := ["mt-9"]; uninstallButton := ["hidden"; "hidden"] |})
      as (Hyes & _ & _).
    apply Hyes. left. apply list_elem_of_singleton. reflexivity.
  - destruct (fn_on_any_buttons "pkg-1" {| themes := None; plugins := None |}
                {| installButton := ["hidden"]; uninstallButton := [] |})
      as (_ & Hno & _).
    apply Hno. intros [Hin | (p & Hin & _)]; by apply elem_of_nil in Hin.
Defined.

(** ** The install request and the type line *)

Lemma details_type (d : PublicFields) :
  (list_to_map (detailsFields d) : gmap string Json) !! "type" = Some (JStr (pf_type d)).
Proof. reflexivity. Qed.

Lemma details_payload (d : PublicFields) :
  (list_to_map (detailsFields d) : gmap string Json) !! "payload"
  = Some (JStr (pf_payload d)).
Proof. reflexivity. Qed.

Lemma details_background_image (d : PublicFields) :
  (list_to_map (detailsFields d) : gmap string Json) !! "background_image"
  = Some (jsonOfString (pf_background_image d)).
Proof. reflexivity. Qed.

(** X23: what the install listener asks the settings service to install
    for a stored package of plain name (table without repeated names): for type
    [theme], the payload with the record's [background_video] as video
    and its [background_image] as background image ([null] when not
    set); for type [plugin-page], a page plugin; for every other type, a
    service-worker plugin, both with the package name and the payload as
    source. *)
Theorem install_argument_of_stored_package
    (tbl : list Catalog) (dirs : gmap string (gmap string (list byte)))
    (row : Catalog) :
  uniqueNames tbl ->
  row ∈ tbl ->
  plainName (package_name row) ->
  installArgument (package_name row) (fetchAssetsJson tbl dirs (package_name row))
  = if String.eqb (type row) "theme"
    then ThemeArgument (Some (JStr (payload row)))
                       (Some (jsonOfString (background_video row)))
                       (Some (jsonOfString (background_image row)))
    else if String.eqb (type row) "plugin-page"
    then PluginArgument (package_name row) (Some (JStr (payload row))) "page"
    else PluginArgument (package_name row) (Some (JStr (payload row))) "serviceWorker".
Proof.
  intros Huniq Hin _.
  rewrite (fetchAssetsJson_found _ _ _ row) by (by apply find_by_name_unique).
  unfold installArgument.
  rewrite details_type, details_payload, details_background_video, details_background_image.
  reflexivity.
Qed.

Lemma install_argument_of_stored_package_witness :
  installArgument "pkg-1" (fetchAssetsJson [Sample.aurora] ∅ "pkg-1")
  = ThemeArgument (Some (JStr "aurora.css")) (Some JNull) (Some (JStr "bg.png")).
Proof.
  apply (install_argument_of_stored_package [Sample.aurora] ∅ Sample.aurora).
  - apply NoDup_singleton.
  - apply list_elem_of_singleton. reflexivity.
  - split; [reflexivity|]; split; [discriminate|]; split; [discriminate|];
      split; [discriminate | cbn; lia].
Defined.

(** X24: the type line of the card never reads [plugin-page] or
    [plugin-sw]: both are shown as [plugin], and any other type is shown
    as it is. *)
Theorem typeLabel_hides_plugin_kind (assetsJson : gmap string Json) :
  typeLabel assetsJson <> Some (JStr "plugin-page")
  /\ typeLabel assetsJson <> Some (JStr "plugin-sw")
  /\ (assetsJson !! "type" = Some (JStr "plugin-page")
      \/ assetsJson !! "type" = Some (JStr "plugin-sw") ->
      typeLabel assetsJson = Some (JStr "plugin"))
  /\ (assetsJson !! "type" <> Some (JStr "plugin-page") ->
      assetsJson !! "type" <> Some (JStr "plugin-sw") ->
      typeLabel assetsJson = assetsJson !! "type").
Proof.
  unfold typeLabel, strictEqStr.
  destruct (assetsJson !! "type") as [[| b | n | s | xs | kvs]|]; cbn [orb];
    try (repeat split; try discriminate; intros [H | H]; discriminate).
  destruct (String.eqb_spec s "plugin-page") as [-> | Hpage]; cbn [orb].
  - repeat split; try discriminate. intros H. by destruct H.
  - destruct (String.eqb_spec s "plugin-sw") as [-> | Hsw].
    + repeat split; try discriminate. intros _ H. by destruct H.
    + repeat split; try congruence. intros [H | H]; congruence.
Qed.

(** ** The listening port *)

Example parseIntAuto_samples :
  parseIntAuto (Some "3000") = Some 3000
  /\ parseIntAuto (Some "0x1F") = Some 31
  /\ parseIntAuto (Some "-0X10") = Some (-16)
  /\ parseIntAuto (Some "0x") = None
  /\ parseIntAuto (Some "8080/tcp") = Some 8080
  /\ parseIntAuto None = None.
Proof. repeat (split; [reflexivity|]). reflexivity. Qed.

(** X25: the server always has a port to listen on, and it is never
    zero: the reading of [PORT] when that is a non-zero integer; else the
    configured port when that is a non-zero number; else 8080. *)
Theorem port_selection (envPort : option string) (configPort : option Z) :
  exists p,
    port envPort configPort = Some p
    /\ p <> 0
    /\ (forall k, parseIntAuto envPort = Some k -> k <> 0 -> p = k)
    /\ (parseIntAuto envPort = None \/ parseIntAuto envPort = Some 0 ->
        (forall k, configPort = Some k -> k <> 0 -> p = k)
        /\ (configPort = None \/ configPort = Some 0 -> p = 8080)).
Proof.
  unfold port. change (parseIntAuto (Some "8080")) with (Some 8080).
  destruct (parseIntAuto envPort) as [e|]; cbn [orElse];
    [destruct (Z.eqb_spec e 0) as [-> | He]|].
  1, 3: destruct configPort as [c|]; cbn [orElse];
    [destruct (Z.eqb_spec c 0) as [-> | Hc]|].
  all: cbn [orElse]; rewrite ?(proj2 (Z.eqb_neq _ 0)) by done.
  all: eexists; split; [reflexivity|].
  all: split; [done|]; split; [intros k Hk Hk0; by simplify_eq|].
  all: intros Henv; split;
    [intros k Hk Hk0; destruct Henv; by simplify_eq
    |intros Hcfg; destruct Henv, Hcfg; by simplify_eq].
Qed.
